(** * Dish Delight server: a shallow embedding of [index.js]

    The development follows the layout of the source file: the JavaScript
    values the handlers manipulate, the helpers ([sanitizeUser],
    [ensureOwnership], [validatePriceValue], [buildProductDocument], ...),
    the route handlers as state-passing functions over the two MongoDB
    collections, and then the properties of the handlers.

    Conventions of the model.
    - A JavaScript string is the Rocq [string] of its UTF-8 bytes; a byte
      that is part of no UTF-8 sequence is read as the ISO 8859-1 character
      of its code. White space is that of ECMAScript, by code point. Letter
      case is that of the ASCII letters: [toLowerCase] is
      [String.prototype.toLowerCase] on the strings of ASCII characters
      ([is_ascii]).
    - A JavaScript number is an IEEE 754 binary64 value, [spec_float] with
      precision 53 and maximal exponent 1024.
    - A document (a request body, a stored record, a JSON answer) is a
      finite map from property names to values; a property that is absent
      reads as [None], which is JavaScript's [undefined]. The values are
      the JSON scalars (null, booleans, numbers, strings) and, in stored
      documents, dates; arrays and nested objects as property values are
      outside the model, and so are query parameters that are not single
      strings.
    - A collection is the list of its documents in natural (insertion)
      order; every collection operation succeeds (driver and network
      failures, which the handlers turn into a 500 answer, are left out),
      and a handler runs from its first read to its answer with no other
      request in between. So the 500 answers of the source that follow a
      write (a document that is not found again after it was written) have
      no run in the model, and a store that only overlapping requests
      produce is none of its stores.
    - [req.body] is the object [express.json()] has parsed. What
      [PUT /products/:id] does when there is none is
      [handleUpdateProduct_sent].
    - The claims of a verified token carry a string [sub], as those of
      every token [buildToken] signs. *)

From Stdlib Require Import ZArith Ascii String List Bool Lia Sorting.Sorted Permutation.
From Stdlib Require Import Floats.SpecFloat.
From stdpp Require Import base option list gmap strings fin_maps.

Local Open Scope string_scope.
Local Open Scope Z_scope.

(** ** JavaScript values *)

Module JS.

(** Numbers: binary64. *)
Definition number := spec_float.
Definition prec : Z := 53.
Definition emax : Z := 1024.

Definition pos_zero : number := S754_zero false.
Definition NaN : number := S754_nan.
Definition of_Z (z : Z) : number := binary_normalize prec emax z 0 false.

(** [Number.isNaN(x)] and [x < y] on numbers. *)
Definition isNaN (x : number) : bool :=
  match x with S754_nan => true | _ => false end.
Definition lt (x y : number) : bool := SFltb x y.
Definition le (x y : number) : bool := SFleb x y.

Inductive value :=
  | VNull
  | VBool (b : bool)
  | VNum (x : number)
  | VStr (s : string)
  | VDate (ms : Z).
(** [VDate ms] is a [Date] with time value [ms]; it occurs in stored
    documents only. *)

(** A property read: [None] is [undefined]. *)
Definition prop := option value.

(** ToBoolean. *)
Definition truthy_value (v : value) : bool :=
  match v with
  | VNull => false
  | VBool b => b
  | VNum (S754_zero _) => false
  | VNum S754_nan => false
  | VNum _ => true
  | VStr s => negb (String.eqb s "")
  | VDate _ => true
  end.

Definition truthy (p : prop) : bool :=
  match p with
  | None => false
  | Some v => truthy_value v
  end.

(** [a || b] on property reads. *)
Definition or_else (a b : prop) : prop := if truthy a then a else b.

(** [p === s] for a string [s]. *)
Definition strict_eq_str (p : prop) (s : string) : bool :=
  match p with
  | Some (VStr t) => String.eqb t s
  | _ => false
  end.

(** *** Strings *)

Definition code (c : ascii) : Z := Z.of_N (N_of_ascii c).

Definition lower_char (c : ascii) : ascii :=
  if (65 <=? code c) && (code c <=? 90)
  then ascii_of_N (N_of_ascii c + 32)
  else c.

(** [String.prototype.toLowerCase], as it is on the strings of ASCII
    characters: the letters A to Z are lowered. *)
Fixpoint toLowerCase (s : string) : string :=
  match s with
  | EmptyString => EmptyString
  | String c r => String (lower_char c) (toLowerCase r)
  end.

Fixpoint drop (n : nat) (s : string) : string :=
  match n, s with
  | O, _ => s
  | S k, EmptyString => EmptyString
  | S k, String _ r => drop k r
  end.

(** [s.startsWith(pat)]. *)
Fixpoint starts_with (pat s : string) : bool :=
  match pat, s with
  | EmptyString, _ => true
  | String a pat', String b s' => Ascii.eqb a b && starts_with pat' s'
  | String _ _, EmptyString => false
  end.

(** [s.replace(pat, "")] for a string pattern: the first occurrence of
    [pat], if any, is removed. *)
Fixpoint remove_first (pat s : string) : string :=
  if starts_with pat s then drop (String.length pat) s
  else match s with
       | EmptyString => EmptyString
       | String c r => String c (remove_first pat r)
       end.

(** [pat] occurs in [s] (at some index). *)
Fixpoint occurs (pat s : string) : bool :=
  starts_with pat s ||
  match s with
  | EmptyString => false
  | String _ r => occurs pat r
  end.

(** *** Dates

    A time value is a number of milliseconds since the epoch. *)

(** [n] in [width] decimal digits, before [acc]. *)
Fixpoint decimal (width : nat) (n : Z) (acc : string) : string :=
  match width with
  | O => acc
  | S k => decimal k (n / 10) (String (ascii_of_N (Z.to_N (48 + n mod 10))) acc)
  end.

(** The year, month and day of a day number (days since the epoch) in the
    proleptic Gregorian calendar. *)
Definition civil (days : Z) : Z * Z * Z :=
  let z := days + 719468 in
  let era := z / 146097 in
  let doe := z - era * 146097 in
  let yoe := (doe - doe / 1460 + doe / 36524 - doe / 146096) / 365 in
  let doy := doe - (365 * yoe + yoe / 4 - yoe / 100) in
  let mp := (5 * doy + 2) / 153 in
  let d := doy - (153 * mp + 2) / 5 + 1 in
  let m := if mp <? 10 then mp + 3 else mp - 9 in
  (yoe + era * 400 + (if m <=? 2 then 1 else 0), m, d).

(** [Date.prototype.toISOString], for a time value in the range of dates. *)
Definition toISOString (t : Z) : string :=
  let ms := t mod 86400000 in
  let '(y, m, d) := civil (t / 86400000) in
  let year :=
    if (0 <=? y) && (y <=? 9999) then decimal 4 y ""
    else (if y <? 0 then "-" else "+") ++ decimal 6 (Z.abs y) "" in
  year ++ "-" ++ decimal 2 m "" ++ "-" ++ decimal 2 d ""
  ++ "T" ++ decimal 2 (ms / 3600000) "" ++ ":" ++ decimal 2 (ms / 60000 mod 60) ""
  ++ ":" ++ decimal 2 (ms / 1000 mod 60) "" ++ "." ++ decimal 3 (ms mod 1000) ""
  ++ "Z".

(** *** Characters and white space *)


(** A byte that continues a UTF-8 sequence. *)
Definition is_continuation (c : ascii) : bool :=
  (128 <=? code c) && (code c <=? 191).

(** The characters of a string, each as the bytes that encode it: a UTF-8
    sequence of two, three or four bytes, or a single byte. *)
Fixpoint chars (s : string) : list string :=
  match s with
  | EmptyString => []
  | String a r =>
      let n := code a in
      let alone := String a "" :: chars r in
      match r with
      | String b r1 =>
          if (194 <=? n) && (n <=? 223) && is_continuation b
          then String a (String b "") :: chars r1
          else
            match r1 with
            | String c r2 =>
                if (224 <=? n) && (n <=? 239) && is_continuation b
                   && is_continuation c
                then String a (String b (String c "")) :: chars r2
                else
                  match r2 with
                  | String d r3 =>
                      if (240 <=? n) && (n <=? 244) && is_continuation b
                         && is_continuation c && is_continuation d
                      then String a (String b (String c (String d ""))) :: chars r3
                      else alone
                  | EmptyString => alone
                  end
            | EmptyString => alone
            end
      | EmptyString => alone
      end
  end.

(** The code point of a character. *)
Definition code_point (char : string) : Z :=
  match char with
  | String a (String b EmptyString) => (code a - 192) * 64 + (code b - 128)
  | String a (String b (String c EmptyString)) =>
      ((code a - 224) * 64 + (code b - 128)) * 64 + (code c - 128)
  | String a (String b (String c (String d EmptyString))) =>
      (((code a - 240) * 64 + (code b - 128)) * 64 + (code c - 128)) * 64
      + (code d - 128)
  | String a _ => code a
  | EmptyString => 0
  end.

(** [WhiteSpace] and [LineTerminator] of ECMAScript: TAB, LF, VT, FF, CR,
    the space, the no-break space, the other space separators of Unicode,
    the line and paragraph separators and the byte order mark. *)
Definition is_ws (char : string) : bool :=
  let n := code_point char in
  ((9 <=? n) && (n <=? 13)) || (n =? 32) || (n =? 160) || (n =? 5760)
  || ((8192 <=? n) && (n <=? 8202)) || (n =? 8232) || (n =? 8233)
  || (n =? 8239) || (n =? 8287) || (n =? 12288) || (n =? 65279).

Fixpoint trim_left (l : list string) : list string :=
  match l with
  | char :: r => if is_ws char then trim_left r else l
  | [] => []
  end.

(** [String.prototype.trim], and the [StrWhiteSpace] that StringToNumber
    skips at both ends. *)
Definition trim (s : string) : string :=
  String.concat "" (List.rev (trim_left (List.rev (trim_left (chars s))))).

(** *** StringToNumber *)

(** The value of a digit in a base up to 16, if it is one. *)
Definition digit_val (base : Z) (c : ascii) : option Z :=
  let n := code c in
  let d := if (48 <=? n) && (n <=? 57) then n - 48
           else if (97 <=? n) && (n <=? 102) then n - 87
           else if (65 <=? n) && (n <=? 70) then n - 55
           else 16 in
  if d <? base then Some d else None.

(** The longest prefix of digits: its value continuing [acc], how many
    digits it has, and what follows it. *)
Fixpoint read_digits (base : Z) (s : string) (acc : Z) (n : nat)
  : Z * nat * string :=
  match s with
  | String c r =>
      match digit_val base c with
      | Some d => read_digits base r (acc * base + d) (S n)
      | None => (acc, n, s)
      end
  | EmptyString => (acc, n, s)
  end.

(** A literal that is digits of [base] and nothing else. *)
Definition all_digits (base : Z) (s : string) : option Z :=
  match read_digits base s 0 O with
  | (v, S _, EmptyString) => Some v
  | _ => None
  end.

(** [ExponentPart], optional: the exponent and nothing after it. *)
Definition read_exponent (s : string) : option Z :=
  match s with
  | EmptyString => Some 0
  | String c r =>
      if (code c =? 101) || (code c =? 69) then
        match r with
        | String "+" d => all_digits 10 d
        | String "-" d => option_map Z.opp (all_digits 10 d)
        | _ => all_digits 10 r
        end
      else None
  end.

(** The number nearest to [m * 10 ^ e] with sign [neg], for [0 <= m]. *)
Definition round_decimal (neg : bool) (m e : Z) : number :=
  match m with
  | Z0 => S754_zero neg
  | Zneg _ => S754_nan
  | Zpos p =>
      if 0 <=? e then binary_round prec emax neg (Pos.mul p (Z.to_pos (10 ^ e))) 0
      else
        let '(q, e', l) := SFdiv_core_binary prec emax (Zpos p) 0 (10 ^ (- e)) 0 in
        binary_round_aux prec emax neg q e' l
  end.

(** [StrUnsignedDecimalLiteral]. *)
Definition unsigned_decimal (neg : bool) (s : string) : number :=
  if String.eqb s "Infinity" then S754_infinity neg
  else
    let '(ip, ni, r1) := read_digits 10 s 0 O in
    let '(m, nf, r2) :=
      match r1 with
      | String "." r => let '(m, nf, r2) := read_digits 10 r ip O in (m, Some nf, r2)
      | _ => (ip, None, r1)
      end in
    let digits_ok :=
      match ni, nf with
      | O, None => false
      | O, Some O => false
      | _, _ => true
      end in
    if digits_ok then
      match read_exponent r2 with
      | Some ex => round_decimal neg m (ex - Z.of_nat (match nf with Some k => k | None => O end))
      | None => S754_nan
      end
    else S754_nan.

(** StringToNumber of ECMAScript: the numeric value of a string, [NaN] when
    the string is not a [StringNumericLiteral]. *)
Definition StringToNumber (str : string) : number :=
  match trim str with
  | EmptyString => pos_zero
  | String "0" (String c r) as s =>
      let radix (b : Z) :=
        match all_digits b r with Some v => of_Z v | None => S754_nan end in
      if (code c =? 120) || (code c =? 88) then radix 16
      else if (code c =? 111) || (code c =? 79) then radix 8
      else if (code c =? 98) || (code c =? 66) then radix 2
      else unsigned_decimal false s
  | String "+" r => unsigned_decimal false r
  | String "-" r => unsigned_decimal true r
  | s => unsigned_decimal false s
  end.

(** [Number(p)]: ToNumber. *)
Definition Number (p : prop) : number :=
  match p with
  | None => NaN
  | Some VNull => pos_zero
  | Some (VBool b) => if b then of_Z 1 else pos_zero
  | Some (VNum x) => x
  | Some (VStr s) => StringToNumber s
  | Some (VDate ms) => of_Z ms
  end.

(** [p !== undefined]. *)
Definition defined (p : prop) : bool :=
  match p with
  | Some _ => true
  | None => false
  end.

End JS.

Import JS.

(** ** The regular expressions of the listing filters

    [GET /items] hands the query strings to MongoDB as [$regex] patterns
    with option [i]. MongoDB matches with PCRE; the model covers the
    patterns made of literal characters, escaped punctuation, [.], [^] and
    [$], and answers [None] on any other pattern (quantifiers, groups,
    classes, alternation), which it does not interpret, and on a pattern
    with a NUL character, which MongoDB refuses. The subject is matched
    byte by byte, which is how PCRE matches a subject of ASCII
    characters. *)

Module Regex.

Inductive atom :=
  | AChar (c : ascii)   (* this character, in either case *)
  | AAny                (* [.]: any character but a line feed *)
  | ABol                (* [^]: the start of the subject *)
  | AEol.               (* [$]: the end of the subject, or before a final line feed *)

Definition is_alnum (c : ascii) : bool :=
  let n := code c in
  ((48 <=? n) && (n <=? 57)) || ((65 <=? n) && (n <=? 90)) || ((97 <=? n) && (n <=? 122)).

(** The characters PCRE gives a meaning to outside a class. *)
Definition is_meta (c : ascii) : bool :=
  existsb (Ascii.eqb c)
    (list_ascii_of_string "\^$.[|()?*+{").

(** The characters that are not taken literally. *)
Definition is_special (c : ascii) : bool := is_meta c || (code c =? 0).

Fixpoint parse (p : string) : option (list atom) :=
  match p with
  | EmptyString => Some nil
  | String c r =>
      if Ascii.eqb c "." then option_map (cons AAny) (parse r)
      else if Ascii.eqb c "^" then option_map (cons ABol) (parse r)
      else if Ascii.eqb c "$" then option_map (cons AEol) (parse r)
      else if Ascii.eqb c "\" then
        match r with
        | String d r' =>
            if is_alnum d then None else option_map (cons (AChar d)) (parse r')
        | EmptyString => None
        end
      else if is_special c then None
      else option_map (cons (AChar c)) (parse r)
  end.

Definition newline : ascii := ascii_of_N 10.

(** The atoms match a prefix of [s]; [start] tells whether [s] is the whole
    subject. *)
Fixpoint match_here (atoms : list atom) (start : bool) (s : string) : bool :=
  match atoms with
  | nil => true
  | AChar c :: rest =>
      match s with
      | String d s' => Ascii.eqb (lower_char d) (lower_char c) && match_here rest false s'
      | EmptyString => false
      end
  | AAny :: rest =>
      match s with
      | String d s' => negb (Ascii.eqb d newline) && match_here rest false s'
      | EmptyString => false
      end
  | ABol :: rest => start && match_here rest start s
  | AEol :: rest =>
      (String.eqb s "" || String.eqb s (String newline "")) && match_here rest start s
  end.

(** The atoms match somewhere in the subject. *)
Fixpoint search_from (atoms : list atom) (start : bool) (s : string) : bool :=
  match_here atoms start s ||
  match s with
  | String _ s' => search_from atoms false s'
  | EmptyString => false
  end.

(** [{ $regex: pattern, $options: "i" }] applied to a string. *)
Definition test_i (pattern subject : string) : option bool :=
  option_map (fun atoms => search_from atoms true subject) (parse pattern).

End Regex.

(** ** The document store *)

Module Mongo.

Definition ObjectId := N.

Record document := { _id : ObjectId; fields : gmap string value }.

Definition collection := list document.

(** What the driver writes for a property: [undefined] is stored as null. *)
Definition bson (p : prop) : value :=
  match p with
  | Some v => v
  | None => VNull
  end.

(** Queries: [{ _id: id }] and [{ email: e }]. *)
Definition by_id (id : ObjectId) (d : document) : bool := N.eqb (_id d) id.
Definition by_email (e : string) (d : document) : bool :=
  strict_eq_str (fields d !! "email") e.

(** [findOne]: the first document, in natural order, that the query selects. *)
Definition findOne (q : document -> bool) (c : collection) : option document :=
  List.find q c.

(** [insertOne] with the identifier the driver generated; the unique index
    on [_id] refuses an identifier that is already in the collection. *)
Definition insertOne (id : ObjectId) (f : gmap string value) (c : collection)
  : option collection :=
  if existsb (by_id id) c then None
  else Some (c ++ [ {| _id := id; fields := f |} ])%list.

(** [{ $set: updates }]: the properties of [updates] are written over the
    document's. *)
Definition set_fields (updates : gmap string value) (d : document) : document :=
  {| _id := _id d; fields := updates ∪ fields d |}.

(** [updateOne]: the first selected document is modified. *)
Fixpoint updateOne (q : document -> bool) (f : document -> document)
  (c : collection) : collection :=
  match c with
  | [] => []
  | d :: r => if q d then f d :: r else d :: updateOne q f r
  end.

(** [deleteOne]: the first selected document is removed. *)
Fixpoint deleteOne (q : document -> bool) (c : collection) : collection :=
  match c with
  | [] => []
  | d :: r => if q d then r else d :: deleteOne q r
  end.

(** [findOneAndUpdate(query by email, { $set, $setOnInsert }, { upsert: true,
    returnDocument: "after" })]: the modified or inserted document and the
    collection after it; [None] when the new identifier is refused. *)
Definition upsert_by_email (id : ObjectId) (e : string)
  (set set_on_insert : gmap string value) (c : collection)
  : option (document * collection) :=
  match findOne (by_email e) c with
  | Some d => Some (set_fields set d, updateOne (by_email e) (set_fields set) c)
  | None =>
      let f := set ∪ set_on_insert ∪ {[ "email" := VStr e ]} in
      match insertOne id f c with
      | Some c' => Some ({| _id := id; fields := f |}, c')
      | None => None
      end
  end.

(** The sort key of [sort({ createdAt: -1 })]: the time of a date. Values
    that are not dates come after every date in this descending order, and
    the model leaves documents with equal keys in natural order. *)
Definition created (d : document) : option Z :=
  match fields d !! "createdAt" with
  | Some (VDate t) => Some t
  | _ => None
  end.

Definition older (a b : document) : bool :=
  match created a, created b with
  | Some x, Some y => x <? y
  | None, Some _ => true
  | _, None => false
  end.

(** [a] may stand before [b] in the listing. *)
Definition not_older (a b : document) : Prop := older a b = false.

Fixpoint insert_desc (x : document) (l : collection) : collection :=
  match l with
  | [] => [x]
  | y :: r => if older x y then y :: insert_desc x r else x :: l
  end.

Definition sort_desc (c : collection) : collection :=
  List.fold_right insert_desc [] c.

End Mongo.

Import Mongo.

(** ** The server *)

(** The claims of a verified token. *)
Record Claims := { sub : string; email : prop; role : prop }.

(** What the process gets from its environment and its libraries: the
    variables of [process.env], [jsonwebtoken], [bcrypt] and the driver's
    [ObjectId]. *)
Record Platform := {
  env_JWT_SECRET : option string;
  env_INTERNAL_API_KEY : option string;
  (* jwt.sign(payload, secret, { expiresIn: "7d" }) at a given time *)
  jwt_sign : Claims -> string -> Z -> string;
  (* jwt.verify(token, secret) at a given time; None when it throws *)
  jwt_verify : string -> string -> Z -> option Claims;
  (* bcrypt.hash(password, 10) with the salt drawn for it *)
  bcrypt_hash : string -> string -> string;
  (* whether a password is the one a hash was made from *)
  bcrypt_check : string -> string -> bool;
  (* new ObjectId(id) where ObjectId.isValid(id), and toString *)
  parse_oid : string -> option ObjectId;
  oid_str : ObjectId -> string
}.

Inductive payload :=
  | Message (message : string)
  | ItemJson (item : gmap string value)
  | ItemsJson (items : list (gmap string value))
  | AuthJson (user : gmap string value) (token : string).

Record response := { status : Z; json : payload }.

Record request := {
  authorization : option string;        (* req.headers.authorization *)
  x_internal_key : option string;       (* req.headers["x-internal-key"] *)
  param_id : string;                    (* req.params.id *)
  query_search : option string;         (* req.query.search *)
  query_category : option string;       (* req.query.category *)
  body : gmap string value;             (* req.body *)
  user : option Claims                  (* req.user *)
}.

Record DB := { usersCollection : collection; itemsCollection : collection }.

(** The failure kinds of the interface and their status codes. *)
Definition ValidationError : Z := 400.
Definition Unauthorized : Z := 401.
Definition Forbidden : Z := 403.
Definition NotFound : Z := 404.
Definition InternalError : Z := 500.

Definition fail (code : Z) (message : string) : response :=
  {| status := code; json := Message message |}.

(** [s || d] for an environment variable or a header. *)
Definition env_or (s : option string) (d : string) : string :=
  match s with
  | Some v => if String.eqb v "" then d else v
  | None => d
  end.

(** A property of an object literal or of a JSON answer: an [undefined]
    property is left out. *)
Definition with_prop (k : string) (p : prop) (o : gmap string value)
  : gmap string value :=
  match p with
  | Some v => <[ k := v ]> o
  | None => o
  end.

Definition DEFAULT_ITEM_IMAGE : string :=
  "https://images.unsplash.com/photo-1504674900247-0877df9cc836?auto=format&fit=crop&w=800&q=80".

Section Server.

Variable P : Platform.

Definition JWT_SECRET : string := env_or (env_JWT_SECRET P) "dev-secret".
Definition INTERNAL_API_KEY : string :=
  env_or (env_INTERNAL_API_KEY P) "dev-internal-key".

Definition sanitizeUser (u : document) : gmap string value :=
  with_prop "id" (Some (VStr (oid_str P (_id u))))
    (with_prop "name" (fields u !! "name")
      (with_prop "email" (fields u !! "email")
        (with_prop "role" (or_else (fields u !! "role") (Some (VStr "user"))) ∅))).

Definition buildToken (now : Z) (u : document) : string :=
  jwt_sign P
    {| sub := oid_str P (_id u);
       email := fields u !! "email";
       role := or_else (fields u !! "role") (Some (VStr "user")) |}
    JWT_SECRET now.

Definition set_user (req : request) (c : Claims) : request :=
  {| authorization := authorization req;
     x_internal_key := x_internal_key req;
     param_id := param_id req;
     query_search := query_search req;
     query_category := query_category req;
     body := body req;
     user := Some c |}.

(** The token [authGuard] takes from the header. *)
Definition bearer_token (req : request) : string :=
  remove_first "Bearer " (env_or (authorization req) "").

(** [authGuard]: an answer, or the request handed to [next()]. *)
Definition authGuard (now : Z) (req : request) : response + request :=
  let token := bearer_token req in
  if String.eqb token "" then inl (fail 401 "Authorization token missing")
  else
    match jwt_verify P token JWT_SECRET now with
    | Some decoded => inr (set_user req decoded)
    | None => inl (fail 401 "Invalid or expired token")
    end.

Definition mapPublicItem (item : document) : gmap string value :=
  let f := fields item in
  with_prop "id" (Some (VStr (oid_str P (_id item))))
    (with_prop "name" (f !! "name")
      (with_prop "summary" (f !! "summary")
        (with_prop "description" (f !! "description")
          (with_prop "image" (f !! "image")
            (with_prop "category" (f !! "category")
              (with_prop "price" (f !! "price")
                (with_prop "priority" (f !! "priority")
                  (with_prop "availableDate" (f !! "availableDate")
                    (with_prop "ownerId" (f !! "ownerId")
                      (with_prop "ownerEmail" (f !! "ownerEmail")
                        (with_prop "createdAt" (f !! "createdAt") ∅))))))))))).

Definition mapUserItem (item : document) : gmap string value :=
  with_prop "userId"
    (or_else (fields item !! "userId") (fields item !! "ownerId"))
    (mapPublicItem item).

Definition ensureOwnership (item : option document) (userId : string) : bool :=
  match item with
  | Some it =>
      strict_eq_str (fields it !! "userId") userId
      || strict_eq_str (fields it !! "ownerId") userId
  | None => false
  end.

Record PriceCheck := { valid : bool; parsed : option number }.

Definition validatePriceValue (v : prop) : PriceCheck :=
  let parsed := Number v in
  if isNaN parsed || lt parsed pos_zero
  then {| valid := false; parsed := None |}
  else {| valid := true; parsed := Some parsed |}.

Definition buildProductDocument (now : Z) (body : gmap string value)
  (userId : string) (userEmail : prop) : gmap string value :=
  list_to_map
    [ ("name", bson (body !! "name"));
      ("summary", bson (body !! "summary"));
      ("description", bson (body !! "description"));
      ("image", bson (or_else (body !! "image") (Some (VStr DEFAULT_ITEM_IMAGE))));
      ("category", bson (body !! "category"));
      ("price", bson (body !! "price"));
      ("priority", bson (or_else (body !! "priority") (Some (VStr "medium"))));
      ("availableDate",
        bson (or_else (body !! "availableDate") (Some (VStr (toISOString now)))));
      ("ownerId", VStr userId);
      ("ownerEmail", bson userEmail);
      ("userId", VStr userId);
      ("createdAt", VDate now);
      ("updatedAt", VDate now) ].

Definition with_items (db : DB) (c : collection) : DB :=
  {| usersCollection := usersCollection db; itemsCollection := c |}.

Definition with_users (db : DB) (c : collection) : DB :=
  {| usersCollection := c; itemsCollection := itemsCollection db |}.

Definition handleCreateProduct (now : Z) (fresh : ObjectId) (req : request)
  (db : DB) : response * DB :=
  let b := body req in
  let name := b !! "name" in
  let summary := b !! "summary" in
  let description := b !! "description" in
  let image := b !! "image" in
  let category := b !! "category" in
  let priority := b !! "priority" in
  let availableDate := b !! "availableDate" in
  let price := b !! "price" in
  if negb (truthy name) || negb (truthy summary) || negb (truthy description)
     || negb (truthy category) || negb (defined price)
  then (fail 400 "Missing required fields", db)
  else
    let check := validatePriceValue price in
    if negb (valid check)
    then (fail 400 "Price must be a valid positive number", db)
    else
      match user req with
      | Some u =>
          let productPayload :=
            buildProductDocument now
              (with_prop "name" name
                (with_prop "summary" summary
                  (with_prop "description" description
                    (with_prop "image" image
                      (with_prop "category" category
                        (with_prop "priority" priority
                          (with_prop "availableDate" availableDate
                            (with_prop "price" (option_map VNum (parsed check)) ∅))))))))
              (sub u) (email u) in
          match insertOne fresh productPayload (itemsCollection db) with
          | Some c' =>
              match findOne (by_id fresh) c' with
              | Some created =>
                  ({| status := 201; json := ItemJson (mapUserItem created) |},
                   with_items db c')
              | None => (fail 500 "Unable to create product", with_items db c')
              end
          | None => (fail 500 "Unable to create product", db)
          end
      | None => (fail 500 "Unable to create product", db)
      end.

Definition handleDeleteProduct (req : request) (db : DB) : response * DB :=
  match parse_oid P (param_id req) with
  | None => (fail 400 "Invalid product id", db)
  | Some id =>
      match findOne (by_id id) (itemsCollection db) with
      | None => (fail 404 "Product not found", db)
      | Some item =>
          match user req with
          | Some u =>
              if negb (ensureOwnership (Some item) (sub u))
              then (fail 403 "You can only delete your own products", db)
              else
                ({| status := 200; json := Message "Product deleted" |},
                 with_items db (deleteOne (by_id (_id item)) (itemsCollection db)))
          | None => (fail 500 "Unable to delete product", db)
          end
      end
  end.

(** The properties [handleUpdateProduct] copies from the body. *)
Definition update_fields : list string :=
  [ "name"; "summary"; "description"; "image"; "category"; "priority";
    "availableDate" ].

(** [fields.forEach(...)]: the listed properties of the body that are not
    [undefined]. *)
Definition copy_fields (b : gmap string value) : gmap string value :=
  List.fold_left (fun updates field => with_prop field (b !! field) updates)
    update_fields ∅.

Definition handleUpdateProduct (now : Z) (req : request) (db : DB)
  : response * DB :=
  match parse_oid P (param_id req) with
  | None => (fail 400 "Invalid product id", db)
  | Some id =>
      match findOne (by_id id) (itemsCollection db) with
      | None => (fail 404 "Product not found", db)
      | Some item =>
          match user req with
          | Some u =>
              if negb (ensureOwnership (Some item) (sub u))
              then (fail 403 "You can only edit your own products", db)
              else
                let updates := copy_fields (body req) in
                let priced :=
                  if defined (body req !! "price") then
                    let check := validatePriceValue (body req !! "price") in
                    if negb (valid check) then None
                    else Some (with_prop "price" (option_map VNum (parsed check)) updates)
                  else Some updates in
                match priced with
                | None => (fail 400 "Price must be a valid positive number", db)
                | Some updates =>
                    if Nat.eqb (size updates) 0
                    then (fail 400 "No changes provided", db)
                    else
                      let updates := <[ "updatedAt" := VDate now ]> updates in
                      let c' := updateOne (by_id (_id item)) (set_fields updates)
                                  (itemsCollection db) in
                      match findOne (by_id (_id item)) c' with
                      | Some updated =>
                          ({| status := 200; json := ItemJson (mapUserItem updated) |},
                           with_items db c')
                      | None => (fail 500 "Unable to update product", with_items db c')
                      end
                end
          | None => (fail 500 "Unable to update product", db)
          end
      end
  end.



(** *** Accounts *)

(** [p.toLowerCase()]: a [TypeError] ([None]) unless [p] is a string. *)
Definition call_toLowerCase (p : prop) : option string :=
  match p with
  | Some (VStr s) => Some (toLowerCase s)
  | _ => None
  end.

(** [bcrypt.hash(data, 10)]: rejects ([None]) unless [data] is a string. *)
Definition bcrypt_hash_js (salt : string) (data : prop) : option string :=
  match data with
  | Some (VStr p) => Some (bcrypt_hash P p salt)
  | _ => None
  end.

(** [bcrypt.compare(data, hash)]: rejects ([None]) unless both are strings;
    the empty string is not a hash and compares false. *)
Definition bcrypt_compare (data hash : prop) : option bool :=
  match data, hash with
  | Some (VStr p), Some (VStr h) =>
      Some (if String.eqb h "" then false else bcrypt_check P p h)
  | _, _ => None
  end.

(** [POST /auth/register]; [created] and [updated] are the two readings of
    the clock, [iat] the time of signature. *)
Definition register (created updated iat : Z) (fresh : ObjectId) (salt : string)
  (req : request) (db : DB) : response * DB :=
  let name := body req !! "name" in
  let email := body req !! "email" in
  let password := body req !! "password" in
  if negb (truthy name) || negb (truthy email) || negb (truthy password)
  then (fail 400 "Name, email, and password are required", db)
  else
    match call_toLowerCase email with
    | Some lower =>
        match findOne (by_email lower) (usersCollection db) with
        | Some existingUser => (fail 409 "Email is already registered", db)
        | None =>
            match bcrypt_hash_js salt password with
            | Some hashedPassword =>
                let newUser : gmap string value :=
                  list_to_map
                    [ ("name", bson name);
                      ("email", VStr lower);
                      ("password", VStr hashedPassword);
                      ("role", VStr "user");
                      ("provider", VStr "credentials");
                      ("createdAt", VDate created);
                      ("updatedAt", VDate updated) ] in
                match insertOne fresh newUser (usersCollection db) with
                | Some c' =>
                    let insertedUser := {| _id := fresh; fields := newUser |} in
                    let token := buildToken iat insertedUser in
                    ({| status := 201;
                        json := AuthJson (sanitizeUser insertedUser) token |},
                     with_users db c')
                | None => (fail 500 "Unable to register user", db)
                end
            | None => (fail 500 "Unable to register user", db)
            end
        end
    | None => (fail 500 "Unable to register user", db)
    end.

(** [POST /auth/login]. *)
Definition login (iat : Z) (req : request) (db : DB) : response * DB :=
  let email := body req !! "email" in
  let password := body req !! "password" in
  if negb (truthy email) || negb (truthy password)
  then (fail 400 "Email and password are required", db)
  else
    match call_toLowerCase email with
    | Some lower =>
        match findOne (by_email lower) (usersCollection db) with
        | None => (fail 401 "Invalid email or password", db)
        | Some u =>
            match bcrypt_compare password
                    (or_else (fields u !! "password") (Some (VStr ""))) with
            | Some isMatch =>
                if negb isMatch
                then (fail 401 "Invalid email or password", db)
                else
                  ({| status := 200;
                      json := AuthJson (sanitizeUser u) (buildToken iat u) |}, db)
            | None => (fail 500 "Unable to login", db)
            end
        end
    | None => (fail 500 "Unable to login", db)
    end.

(** [internalKey !== INTERNAL_API_KEY]. *)
Definition key_differs (internalKey : option string) : bool :=
  match internalKey with
  | Some k => negb (String.eqb k INTERNAL_API_KEY)
  | None => true
  end.

(** The [$set] document of [POST /auth/oauth]. *)
Definition oauth_set (now : Z) (normalizedEmail : string) (name provider : prop)
  : gmap string value :=
  list_to_map
    [ ("name", bson name);
      ("email", VStr normalizedEmail);
      ("provider", bson (or_else provider (Some (VStr "google"))));
      ("role", VStr "user");
      ("updatedAt", VDate now) ].

(** [POST /auth/oauth]. *)
Definition oauth (now iat : Z) (fresh : ObjectId) (req : request) (db : DB)
  : response * DB :=
  if key_differs (x_internal_key req)
  then (fail 401 "Unauthorized request", db)
  else
    let email := body req !! "email" in
    let name := body req !! "name" in
    let provider := body req !! "provider" in
    if negb (truthy email) || negb (truthy name)
    then (fail 400 "Email and name are required", db)
    else
      match call_toLowerCase email with
      | Some normalizedEmail =>
          let set := oauth_set now normalizedEmail name provider in
          let setOnInsert : gmap string value := {[ "createdAt" := VDate now ]} in
          match upsert_by_email fresh normalizedEmail set setOnInsert
                  (usersCollection db) with
          | Some (u, c') =>
              ({| status := 200;
                  json := AuthJson (sanitizeUser u) (buildToken iat u) |},
               with_users db c')
          | None => (fail 500 "Unable to sync OAuth user", db)
          end
      | None => (fail 500 "Unable to sync OAuth user", db)
      end.

(** *** The public listing *)

(** A query parameter as a filter on a property: no filter when the
    parameter is absent or empty; otherwise the property has to be a string
    in which the pattern is found. [None] when the pattern is outside the
    modelled fragment. *)
Definition compile_filter (q : option string) (pattern : string -> string)
  : option (prop -> bool) :=
  match q with
  | Some s =>
      if String.eqb s "" then Some (fun _ => true)
      else
        option_map
          (fun atoms (p : prop) =>
             match p with
             | Some (VStr subject) => Regex.search_from atoms true subject
             | _ => false
             end)
          (Regex.parse (pattern s))
  | None => Some (fun _ => true)
  end.

(** [GET /items]. *)
Definition getItems (req : request) (db : DB) : option response :=
  match compile_filter (query_search req) (fun search => search),
        compile_filter (query_category req)
          (fun category => "^" ++ category ++ "$") with
  | Some by_name, Some by_category =>
      let items :=
        sort_desc
          (List.filter
             (fun d => by_name (fields d !! "name")
                       && by_category (fields d !! "category"))
             (itemsCollection db)) in
      Some {| status := 200; json := ItemsJson (List.map mapPublicItem items) |}
  | _, _ => None
  end.

(** [PUT /products/:id], [POST /products] and [DELETE /products/:id]: the
    guard, then the handler. *)
Definition guarded (now : Z) (handler : request -> DB -> response * DB)
  (req : request) (db : DB) : response * DB :=
  match authGuard now req with
  | inl answer => (answer, db)
  | inr req' => handler req' db
  end.

End Server.

(** ** The states of the store

    The invariant of the users collection: an email is stored in lower
    case. *)

Definition lowercase_email (d : document) : bool :=
  match fields d !! "email" with
  | Some (VStr s) => String.eqb (toLowerCase s) s
  | _ => true
  end.

Definition emails_normalized (c : collection) : bool :=
  forallb lowercase_email c.

(** One request served, from its first read to its answer. *)
Inductive step (P : Platform) (db : DB) : DB -> Prop :=
  | step_register created updated iat fresh salt req :
      step P db (snd (register P created updated iat fresh salt req db))
  | step_login iat req :
      step P db (snd (login P iat req db))
  | step_oauth now iat fresh req :
      step P db (snd (oauth P now iat fresh req db))
  | step_create now fresh req :
      step P db (snd (handleCreateProduct P now fresh req db))
  | step_update now req :
      step P db (snd (handleUpdateProduct P now req db))
  | step_delete req :
      step P db (snd (handleDeleteProduct P req db)).

(** The stores the server reaches from empty collections when it serves one
    request after another. *)
Inductive reachable (P : Platform) : DB -> Prop :=
  | reachable_empty :
      reachable P {| usersCollection := []; itemsCollection := [] |}
  | reachable_step db db' :
      reachable P db -> step P db db' -> reachable P db'.

(** ** The words of the interface *)

Module Described.








(** A price parses as a non-negative number: its conversion is a number,
    not [NaN], and zero is at most it. *)
Definition parses_non_negative (price : prop) : Prop :=
  isNaN (Number price) = false /\ le pos_zero (Number price) = true.

End Described.

(** ** A sample platform

    Stand-ins for the libraries, to run the handlers on examples: tokens
    are not signed, hashes are neither salted nor one-way here. *)

Module Sample.

Definition hex_digit (n : N) : ascii :=
  ascii_of_N (if (n <? 10)%N then 48 + n else 87 + n).

Fixpoint hex (digits : nat) (n : N) (acc : string) : string :=
  match digits with
  | O => acc
  | S k => hex k (n / 16) (String (hex_digit (n mod 16)) acc)
  end.

Definition oid_hex (id : ObjectId) : string := hex 24 id "".

Definition oid_of_hex (s : string) : option ObjectId :=
  if Nat.eqb (String.length s) 24
  then option_map Z.to_N (all_digits 16 s)
  else None.

Definition sign (c : Claims) (secret : string) (iat : Z) : string :=
  "token-" ++ sub c.

Definition verify (token secret : string) (now : Z) : option Claims :=
  if starts_with "token-" token
  then Some {| sub := JS.drop 6 token; email := None; role := Some (VStr "user") |}
  else None.

Definition platform : Platform :=
  {| env_JWT_SECRET := None;
     env_INTERNAL_API_KEY := None;
     jwt_sign := sign;
     jwt_verify := verify;
     bcrypt_hash := fun password salt => "$2b$10$" ++ password;
     bcrypt_check := fun password h => String.eqb h ("$2b$10$" ++ password);
     parse_oid := oid_of_hex;
     oid_str := oid_hex |}.

(** Requests and a caller. *)
Definition anonymous (b : gmap string value) : request :=
  {| authorization := None; x_internal_key := None; param_id := "";
     query_search := None; query_category := None; body := b; user := None |}.

Definition as_user (uid : string) (id : string) (b : gmap string value) : request :=
  {| authorization := None; x_internal_key := None; param_id := id;
     query_search := None; query_category := None; body := b;
     user := Some {| sub := uid; email := Some (VStr "u@example.com");
                     role := Some (VStr "user") |} |}.

Definition empty_db : DB := {| usersCollection := []; itemsCollection := [] |}.


Definition sync (b : gmap string value) : request :=
  {| authorization := None; x_internal_key := Some "dev-internal-key";
     param_id := ""; query_search := None; query_category := None; body := b;
     user := None |}.

(** A menu of one item, created by user U; the body tries to name another
    owner. *)
Definition soup_body : gmap string value :=
  list_to_map
    [ ("name", VStr "Soup"); ("summary", VStr "s"); ("description", VStr "d");
      ("category", VStr "Starter"); ("price", VNum (of_Z 5));
      ("ownerId", VStr "V") ].

Definition menu : DB :=
  snd (handleCreateProduct platform 1736519400000 1%N (as_user "U" "" soup_body) empty_db).


Definition price_only : gmap string value := {[ "price" := VStr "12.5" ]}.

(** One registered user. *)
Definition ann_body : gmap string value :=
  list_to_map
    [ ("name", VStr "Ann"); ("email", VStr "Ann@Example.com");
      ("password", VStr "secret") ].

Definition members : DB :=
  snd (register platform 10 10 10 7%N "salt" (anonymous ann_body) empty_db).

Definition credentials (email : string) (password : value) : gmap string value :=
  list_to_map [ ("email", VStr email); ("password", password) ].

Definition profile (email name : string) : gmap string value :=
  list_to_map [ ("email", VStr email); ("name", VStr name) ].

End Sample.

(** ** The other routes and the routing table

    The read routes ([GET /items/:id], [GET /items/mine], [GET /products]),
    the origin check of the CORS middleware and the order in which Express
    tries the routes. A request path is the list of its decoded segments;
    literal segments compare letter case apart, a parameter takes one
    segment that is not empty and a final slash does not count, as in
    Express's default routing. The methods are the four the routes are
    registered for. The table is what a request reaches once the CORS
    middleware has accepted its origin and its body is parsed; the preflight
    is not part of it. *)

(** [s.split(",")]. *)
Fixpoint split_comma (s : string) : list string :=
  match s with
  | EmptyString => [ "" ]
  | String c r =>
      if Ascii.eqb c "," then "" :: split_comma r
      else
        match split_comma r with
        | h :: t => String c h :: t
        | [] => [ String c "" ]
        end
  end.

(** The value of [CLIENT_ORIGIN] that lists [entries], to state what
    [split_comma] gives back. *)
Fixpoint join_comma (entries : list string) : string :=
  match entries with
  | [] => ""
  | [ e ] => e
  | e :: rest => e ++ "," ++ join_comma rest
  end.

(** [allowedOrigins], from [process.env.CLIENT_ORIGIN]. *)
Definition allowedOrigins (CLIENT_ORIGIN : option string) : list string :=
  [ "http://localhost:3000"; "https://dishdelight-client.vercel.app" ]
  ++ match CLIENT_ORIGIN with
     | Some v => if String.eqb v "" then [] else List.map trim (split_comma v)
     | None => []
     end.

(** The [origin] function of the CORS options: whether the callback is
    given [true] (otherwise it is given an error). *)
Definition corsOrigin (CLIENT_ORIGIN : option string) (origin : option string)
  : bool :=
  match origin with
  | None => true
  | Some o =>
      String.eqb o ""
      || existsb (String.eqb o) (allowedOrigins CLIENT_ORIGIN)
  end.

Inductive method := GET | POST | PUT | DELETE.

(** A segment of a route path: a literal or a parameter. *)
Inductive segment :=
  | Lit (s : string)
  | Param.

(** What the handlers read besides the request: the clock, the identifier
    and the salt drawn for an insertion. *)
Record Env := {
  env_now : Z;
  env_later : Z;
  env_iat : Z;
  env_fresh : ObjectId;
  env_salt : string
}.

(** An answer of the table: one of the handlers', or one of the two status
    documents, of which the model keeps the timestamp. *)
Inductive reply :=
  | Handled (r : response)
  | ServerInfo (timestamp : string)
  | Health (timestamp : string).

Definition with_param (req : request) (id : string) : request :=
  {| authorization := authorization req;
     x_internal_key := x_internal_key req;
     param_id := id;
     query_search := query_search req;
     query_category := query_category req;
     body := body req;
     user := user req |}.

(** A path against a route path: the value of [:id] when they match (the
    empty string when the route has no parameter). *)
Fixpoint match_path (pattern : list segment) (path : list string)
  : option string :=
  match pattern, path with
  | [], [] => Some ""
  | Lit s :: pattern', x :: path' =>
      if String.eqb (toLowerCase x) (toLowerCase s)
      then match_path pattern' path'
      else None
  | Param :: pattern', x :: path' =>
      if String.eqb x "" then None
      else
        match match_path pattern' path' with
        | Some _ => Some x
        | None => None
        end
  | _, _ => None
  end.

Section Routes.

Variable P : Platform.

(** [buildOwnershipQuery(userId)]: the documents
    [{ $or: [{ userId }, { ownerId: userId }] }] selects. *)
Definition buildOwnershipQuery (userId : string) (d : document) : bool :=
  strict_eq_str (fields d !! "userId") userId
  || strict_eq_str (fields d !! "ownerId") userId.

(** [GET /items/:id]. *)
Definition getItem (req : request) (db : DB) : response :=
  match parse_oid P (param_id req) with
  | None => fail 400 "Invalid item id"
  | Some id =>
      match findOne (by_id id) (itemsCollection db) with
      | None => fail 404 "Item not found"
      | Some item => {| status := 200; json := ItemJson (mapPublicItem P item) |}
      end
  end.

(** The handler of [GET /items/mine] and of [GET /products], which differ
    by the message of their 500 answer. *)
Definition listOwned (message : string) (req : request) (db : DB) : response :=
  match user req with
  | Some u =>
      {| status := 200;
         json :=
           ItemsJson
             (List.map (mapUserItem P)
                (sort_desc
                   (List.filter (buildOwnershipQuery (sub u))
                      (itemsCollection db)))) |}
  | None => fail 500 message
  end.

Definition handler := Env -> request -> DB -> option (reply * DB).

Definition answer (r : response * DB) : option (reply * DB) :=
  Some (Handled (fst r), snd r).

Definition read_only (h : request -> DB -> response) : handler :=
  fun _ req db => Some (Handled (h req db), db).

(** A route behind [authGuard]. *)
Definition protected (h : Env -> request -> DB -> response * DB) : handler :=
  fun env req db => answer (guarded P (env_now env) (h env) req db).

(** The routes, in the order of their registration. *)
Definition routes : list (method * list segment * handler) :=
  [ (GET, [], fun env _ db => Some (ServerInfo (toISOString (env_now env)), db));
    (GET, [ Lit "health" ],
       fun env _ db => Some (Health (toISOString (env_now env)), db));
    (POST, [ Lit "auth"; Lit "register" ],
       fun env req db =>
         answer (register P (env_now env) (env_later env) (env_iat env) (env_fresh env)
                   (env_salt env) req db));
    (POST, [ Lit "auth"; Lit "login" ],
       fun env req db => answer (login P (env_iat env) req db));
    (POST, [ Lit "auth"; Lit "oauth" ],
       fun env req db =>
         answer (oauth P (env_now env) (env_iat env) (env_fresh env) req db));
    (GET, [ Lit "items" ],
       fun _ req db =>
         option_map (fun r => (Handled r, db)) (getItems P req db));
    (GET, [ Lit "items"; Param ], read_only getItem);
    (GET, [ Lit "items"; Lit "mine" ],
       protected (fun _ req db =>
                    (listOwned "Unable to fetch managed items" req db, db)));
    (GET, [ Lit "products" ],
       protected (fun _ req db =>
                    (listOwned "Unable to fetch products" req db, db)));
    (PUT, [ Lit "products"; Param ],
       protected (fun env => handleUpdateProduct P (env_now env)));
    (POST, [ Lit "items" ],
       protected (fun env => handleCreateProduct P (env_now env) (env_fresh env)));
    (POST, [ Lit "products" ],
       protected (fun env => handleCreateProduct P (env_now env) (env_fresh env)));
    (DELETE, [ Lit "items"; Param ], protected (fun _ => handleDeleteProduct P));
    (DELETE, [ Lit "products"; Param ],
       protected (fun _ => handleDeleteProduct P)) ].

Definition method_eqb (a b : method) : bool :=
  match a, b with
  | GET, GET | POST, POST | PUT, PUT | DELETE, DELETE => true
  | _, _ => false
  end.

(** The first route of a table that the request matches, with the request
    it hands to the handler. *)
Fixpoint first_match (table : list (method * list segment * handler))
  (m : method) (path : list string) (req : request)
  : option (handler * request) :=
  match table with
  | [] => None
  | (m', pattern, h) :: rest =>
      match (if method_eqb m m' then match_path pattern path else None) with
      | Some id => Some (h, with_param req id)
      | None => first_match rest m path req
      end
  end.

(** The application: the first matching route, or the final 404. *)
Definition dispatch (env : Env) (m : method) (path : list string)
  (req : request) (db : DB) : option (reply * DB) :=
  match first_match routes m path req with
  | Some (h, req') => h env req' db
  | None => Some (Handled (fail 404 "Route not found"), db)
  end.

End Routes.

(** The three handlers that write to the items, as the table calls them. *)
Inductive item_writer (P : Platform) (env : Env)
  : (request -> DB -> response * DB) -> Prop :=
  | writer_update : item_writer P env (handleUpdateProduct P (env_now env))
  | writer_create :
      item_writer P env (handleCreateProduct P (env_now env) (env_fresh env))
  | writer_delete : item_writer P env (handleDeleteProduct P).

(** ** What the store holds *)

(** The fields of a well-formed item: a price that is a number, not [NaN]
    and not below zero, and the same string under [ownerId] and [userId]. *)
Definition priced (f : gmap string value) : Prop :=
  exists x, f !! "price" = Some (VNum x)
            /\ isNaN x = false /\ lt x pos_zero = false.

Definition owned (f : gmap string value) : Prop :=
  exists s, f !! "ownerId" = Some (VStr s) /\ f !! "userId" = Some (VStr s).

(** The fields [register] stores. *)
Definition registered (name : prop) (email hash : string) (created updated : Z)
  : gmap string value :=
  list_to_map
    [ ("name", bson name); ("email", VStr email); ("password", VStr hash);
      ("role", VStr "user"); ("provider", VStr "credentials");
      ("createdAt", VDate created); ("updatedAt", VDate updated) ].

(** The identifiers and the emails as keys, and what an item holds. *)
Definition unique_ids (c : collection) : Prop := NoDup (_id <$> c).

Definition email_of (d : document) : prop := fields d !! "email".

Definition unique_emails (c : collection) : Prop := NoDup (email_of <$> c).

Definition well_formed_item (d : document) : Prop :=
  priced (fields d) /\ owned (fields d).

Record consistent (db : DB) : Prop := {
  users_ids : unique_ids (usersCollection db);
  users_emails : unique_emails (usersCollection db);
  items_ids : unique_ids (itemsCollection db);
  items_well_formed : Forall well_formed_item (itemsCollection db)
}.

(** What a step keeps of an account. *)
Definition same_credentials (u u' : document) : Prop :=
  _id u' = _id u
  /\ fields u' !! "email" = fields u !! "email"
  /\ fields u' !! "password" = fields u !! "password"
  /\ fields u' !! "createdAt" = fields u !! "createdAt".

(** An entry of [CLIENT_ORIGIN] holds no comma. *)
Fixpoint comma_free (s : string) : bool :=
  match s with
  | EmptyString => true
  | String c r => negb (Ascii.eqb c ",") && comma_free r
  end.

(** ** More sample data *)

Module Trial.

Import Sample.

(** The clock, the identifier and the salt of the registration of Ann. *)
Definition env : Env :=
  {| env_now := 10; env_later := 10; env_iat := 10; env_fresh := 7%N;
     env_salt := "salt" |}.

(** The same for a later request. *)
Definition later : Env :=
  {| env_now := 40; env_later := 40; env_iat := 40; env_fresh := 8%N;
     env_salt := "salt" |}.

(** A request that carries a token of the sample platform. *)
Definition bearer (uid : string) (b : gmap string value) : request :=
  {| authorization := Some ("Bearer token-" ++ uid);
     x_internal_key := None; param_id := ""; query_search := None;
     query_category := None; body := b; user := None |}.

Definition ann_profile : gmap string value := profile "ANN@example.com" "Ann B".

Definition password_login : request :=
  anonymous (credentials "ANN@example.com" (VStr "secret")).

End Trial.

(** * Properties *)

(** ** Values, strings and collections *)

Lemma strict_eq_str_true (p : prop) (s : string) :
  strict_eq_str p s = true <-> p = Some (VStr s).
Proof.
  unfold strict_eq_str. destruct p as [[ | | | t | ]|]; try (split; [discriminate | congruence]).
  rewrite String.eqb_eq. split; congruence.
Qed.

Lemma strict_eq_str_false (p : prop) (s : string) :
  strict_eq_str p s = false <-> p <> Some (VStr s).
Proof.
  rewrite <- strict_eq_str_true. destruct (strict_eq_str p s); split; congruence.
Qed.

Lemma lookup_with_prop (k k' : string) (p : prop) (o : gmap string value) :
  with_prop k p o !! k' =
  match p with
  | Some v => if decide (k = k') then Some v else o !! k'
  | None => o !! k'
  end.
Proof.
  unfold with_prop. destruct p as [v|]; [|reflexivity].
  destruct (decide (k = k')) as [->|Hne].
  - apply lookup_insert_eq.
  - by apply lookup_insert_ne.
Qed.

Lemma lookup_with_prop_ne (k k' : string) (p : prop) (o : gmap string value) :
  k <> k' -> with_prop k p o !! k' = o !! k'.
Proof.
  intros Hne. rewrite lookup_with_prop. destruct p; [|reflexivity].
  by rewrite decide_False.
Qed.

Lemma lookup_with_prop_eq (k : string) (p : prop) (o : gmap string value) :
  with_prop k p o !! k = match p with Some v => Some v | None => o !! k end.
Proof.
  rewrite lookup_with_prop. destruct p; [|reflexivity].
  by rewrite decide_True.
Qed.

Lemma findOne_by_id (id : ObjectId) (c : collection) (d : document) :
  findOne (by_id id) c = Some d -> _id d = id /\ In d c.
Proof.
  unfold findOne. intros H. apply List.find_some in H as [Hin Hq].
  split; [|exact Hin]. unfold by_id in Hq. by apply N.eqb_eq in Hq.
Qed.

Lemma findOne_updateOne (q : document -> bool) (f : document -> document)
  (c : collection) (d : document) :
  findOne q c = Some d -> q (f d) = true ->
  findOne q (updateOne q f c) = Some (f d).
Proof.
  unfold findOne. induction c as [|x r IH]; simpl; [discriminate|].
  destruct (q x) eqn:Hq; intros Hd Hf.
  - injection Hd as ->. simpl. by rewrite Hf.
  - simpl. rewrite Hq. by apply IH.
Qed.

Lemma findOne_updateOne_other (q q' : document -> bool)
  (f : document -> document) (c : collection) :
  (forall d, q d = true -> q' d = false /\ q' (f d) = false) ->
  findOne q' (updateOne q f c) = findOne q' c.
Proof.
  intros H. unfold findOne. induction c as [|x r IH]; simpl; [reflexivity|].
  destruct (q x) eqn:Hq; simpl.
  - destruct (H x Hq) as [-> ->]. reflexivity.
  - destruct (q' x); [reflexivity | exact IH].
Qed.

Lemma length_updateOne (q : document -> bool) (f : document -> document)
  (c : collection) : length (updateOne q f c) = length c.
Proof.
  induction c as [|x r IH]; simpl; [reflexivity|].
  destruct (q x); simpl; congruence.
Qed.

(** ** The handlers of items *)

Lemma ensureOwnership_true (item : document) (uid : string) :
  ensureOwnership (Some item) uid = true <->
  fields item !! "userId" = Some (VStr uid)
  \/ fields item !! "ownerId" = Some (VStr uid).
Proof.
  unfold ensureOwnership. rewrite orb_true_iff, !strict_eq_str_true. reflexivity.
Qed.

Lemma ensureOwnership_false (item : document) (uid : string) :
  ensureOwnership (Some item) uid = false <->
  fields item !! "userId" <> Some (VStr uid)
  /\ fields item !! "ownerId" <> Some (VStr uid).
Proof.
  unfold ensureOwnership. rewrite orb_false_iff, !strict_eq_str_false. reflexivity.
Qed.

(** What [fields.forEach] collects: the listed properties the body has. *)
Lemma lookup_fold_with_prop (b acc : gmap string value) (l : list string)
  (k : string) :
  List.fold_left (fun updates field => with_prop field (b !! field) updates) l acc !! k
  = if decide (k ∈ l)
    then match b !! k with Some v => Some v | None => acc !! k end
    else acc !! k.
Proof.
  revert acc. induction l as [|f l IH]; intros acc; cbn [List.fold_left].
  - rewrite decide_False by apply not_elem_of_nil. reflexivity.
  - rewrite IH, lookup_with_prop.
    destruct (decide (f = k)) as [->|Hne].
    + rewrite (decide_True (P := k ∈ k :: l)) by (apply elem_of_cons; by left).
      destruct (b !! k) eqn:Hb; rewrite ?decide_True by reflexivity;
        by destruct (decide (k ∈ l)).
    + assert (Hk : k ∈ f :: l <-> k ∈ l)
        by (rewrite elem_of_cons; intuition congruence).
      rewrite (decide_ext _ _ _ _ Hk).
      destruct (b !! f) eqn:Hf; rewrite ?decide_False by assumption; reflexivity.
Qed.

Lemma lookup_copy_fields (b : gmap string value) (k : string) :
  copy_fields b !! k = if decide (k ∈ update_fields) then b !! k else None.
Proof.
  unfold copy_fields. rewrite lookup_fold_with_prop, lookup_empty.
  destruct (decide _); [|reflexivity]. by destruct (b !! k).
Qed.

Lemma findOne_insertOne (id : ObjectId) (f : gmap string value)
  (c c' : collection) :
  insertOne id f c = Some c' ->
  c' = (c ++ [ {| _id := id; fields := f |} ])%list
  /\ findOne (by_id id) c' = Some {| _id := id; fields := f |}.
Proof.
  unfold insertOne. destruct (existsb (by_id id) c) eqn:Hex; [discriminate|].
  intros [= <-]. split; [reflexivity|].
  unfold findOne. induction c as [|x r IH]; simpl in *.
  - unfold by_id. simpl. by rewrite N.eqb_refl.
  - apply orb_false_iff in Hex as [Hx Hr]. rewrite Hx. by apply IH.
Qed.

Ltac lookup_literal :=
  repeat first
    [ rewrite lookup_with_prop_eq
    | rewrite lookup_with_prop_ne by discriminate
    | rewrite lookup_empty ].

Section Items.

Variable P : Platform.

(** C1. A caller whose id is neither the item's [userId] nor its [ownerId]
    gets Forbidden from update and from delete, and the store stays as it
    was; a caller whose id is one of the two passes the ownership check:
    update answers 200 or a validation error, delete removes the item. *)
Theorem ownership_guard (now : Z) (req : request) (db : DB) (id : ObjectId)
  (item : document) (u : Claims) :
  parse_oid P (param_id req) = Some id ->
  findOne (by_id id) (itemsCollection db) = Some item ->
  user req = Some u ->
  (fields item !! "userId" <> Some (VStr (sub u))
   /\ fields item !! "ownerId" <> Some (VStr (sub u)) ->
   handleUpdateProduct P now req db
     = (fail Forbidden "You can only edit your own products", db)
   /\ handleDeleteProduct P req db
     = (fail Forbidden "You can only delete your own products", db))
  /\
  (fields item !! "userId" = Some (VStr (sub u))
   \/ fields item !! "ownerId" = Some (VStr (sub u)) ->
   (status (fst (handleUpdateProduct P now req db)) = 200
    \/ status (fst (handleUpdateProduct P now req db)) = ValidationError)
   /\ handleDeleteProduct P req db
     = ({| status := 200; json := Message "Product deleted" |},
        with_items db (deleteOne (by_id id) (itemsCollection db)))).
Proof.
  intros Hid Hfind Huser.
  destruct (findOne_by_id _ _ _ Hfind) as [Hitem _].
  split.
  - intros Hother. apply ensureOwnership_false in Hother.
    unfold handleUpdateProduct, handleDeleteProduct.
    rewrite Hid, Hfind, Huser, Hother. split; reflexivity.
  - intros Howner. apply ensureOwnership_true in Howner.
    unfold handleUpdateProduct, handleDeleteProduct.
    rewrite Hid, Hfind, Huser, Howner, Hitem. cbn [negb]. split; [|reflexivity].
    destruct (defined (body req !! "price"));
      [destruct (valid (validatePriceValue (body req !! "price")))|];
      cbn [negb fst status fail];
      try (right; reflexivity);
      (match goal with |- context [Nat.eqb ?n 0] => destruct (Nat.eqb n 0) end;
       [right; reflexivity|]);
      (erewrite findOne_updateOne;
       [left; reflexivity | exact Hfind | unfold by_id; cbn [_id set_fields];
        rewrite Hitem; apply N.eqb_refl]).
Qed.


(** What a successful update writes: [updatedAt], and the recognised
    properties the body has. *)
Lemma update_success (now : Z) (req : request) (db db' : DB) (r : response) :
  handleUpdateProduct P now req db = (r, db') ->
  status r = 200 ->
  exists id item updates,
    parse_oid P (param_id req) = Some id
    /\ findOne (by_id id) (itemsCollection db) = Some item
    /\ r = {| status := 200;
              json := ItemJson (mapUserItem P (set_fields updates item)) |}
    /\ db' = with_items db
               (updateOne (by_id id) (set_fields updates) (itemsCollection db))
    /\ findOne (by_id id) (itemsCollection db') = Some (set_fields updates item)
    /\ updates !! "updatedAt" = Some (VDate now)
    /\ (forall k, k <> "updatedAt" -> is_Some (updates !! k) ->
          k ∈ "price" :: update_fields /\ is_Some (body req !! k)).
Proof.
  unfold handleUpdateProduct.
  destruct (parse_oid P (param_id req)) as [id|] eqn:Hid;
    [|intros [= <- <-]; discriminate].
  destruct (findOne (by_id id) (itemsCollection db)) as [item|] eqn:Hfind;
    [|intros [= <- <-]; discriminate].
  destruct (findOne_by_id _ _ _ Hfind) as [Hitem _]. rewrite Hitem.
  destruct (user req) as [u|]; [|intros [= <- <-]; discriminate].
  destruct (ensureOwnership (Some item) (sub u));
    [|intros [= <- <-]; discriminate].
  cbn [negb].
  set (priced := if defined (body req !! "price") then _ else _).
  assert (Hpriced : forall upd, priced = Some upd ->
            forall k, is_Some (upd !! k) ->
              k ∈ "price" :: update_fields /\ is_Some (body req !! k)).
  { subst priced. intros upd Hupd k Hk.
    assert (Hcopy : is_Some (copy_fields (body req) !! k) ->
              k ∈ "price" :: update_fields /\ is_Some (body req !! k)).
    { rewrite lookup_copy_fields.
      destruct (decide (k ∈ update_fields)) as [Hin|]; [|by intros [? ?]].
      intros Hb. split; [apply elem_of_cons; by right | exact Hb]. }
    destruct (body req !! "price") as [pv|] eqn:Hprice; cbn [defined] in Hupd.
    - destruct (valid (validatePriceValue (Some pv))); [|discriminate].
      injection Hupd as <-. rewrite lookup_with_prop in Hk.
      destruct (parsed (validatePriceValue (Some pv))); cbn [option_map] in Hk;
        [|by apply Hcopy].
      destruct (decide ("price" = k)) as [<-|]; [|by apply Hcopy].
      split; [apply elem_of_cons; by left | rewrite Hprice; by eexists].
    - injection Hupd as <-. by apply Hcopy. }
  destruct priced as [upd|]; [|intros [= <- <-]; discriminate].
  destruct (Nat.eqb (size upd) 0); [intros [= <- <-]; discriminate|].
  erewrite findOne_updateOne;
    [| exact Hfind | unfold by_id; cbn [_id set_fields]; rewrite Hitem;
                     apply N.eqb_refl].
  intros [= <- <-] _.
  exists id, item, (<["updatedAt" := VDate now]> upd).
  split; [reflexivity|]. split; [exact Hfind|].
  split; [reflexivity|]. split; [reflexivity|].
  split.
  { cbn [itemsCollection with_items]. apply findOne_updateOne; [exact Hfind|].
    unfold by_id. cbn [_id set_fields]. rewrite Hitem. apply N.eqb_refl. }
  split; [apply lookup_insert_eq|].
  intros k Hne Hk. rewrite lookup_insert_ne in Hk by congruence.
  by apply (Hpriced upd).
Qed.

(** C2. After a successful update, a property of the stored item differs
    from what it was only if it is [updatedAt] or one of name, summary,
    description, image, category, priority, availableDate, price that the
    request has. The owner fields and [createdAt] are as before, and an
    update with only a price leaves every other property but [updatedAt] as
    it was. The other documents are untouched. *)
Theorem update_changes_only_requested (now : Z) (req : request) (db db' : DB)
  (r : response) :
  handleUpdateProduct P now req db = (r, db') ->
  status r = 200 ->
  exists id item item',
    parse_oid P (param_id req) = Some id
    /\ findOne (by_id id) (itemsCollection db) = Some item
    /\ findOne (by_id id) (itemsCollection db') = Some item'
    /\ _id item' = _id item
    /\ (forall k, fields item' !! k <> fields item !! k ->
          k = "updatedAt"
          \/ (k ∈ "price" :: update_fields /\ is_Some (body req !! k)))
    /\ fields item' !! "updatedAt" = Some (VDate now)
    /\ (forall k, k ∈ ["ownerId"; "userId"; "ownerEmail"; "createdAt"] ->
          fields item' !! k = fields item !! k)
    /\ ((forall k, k <> "price" -> body req !! k = None) ->
        forall k, k <> "price" -> k <> "updatedAt" ->
          fields item' !! k = fields item !! k)
    /\ usersCollection db' = usersCollection db
    /\ length (itemsCollection db') = length (itemsCollection db)
    /\ (forall id', id' <> id ->
          findOne (by_id id') (itemsCollection db')
          = findOne (by_id id') (itemsCollection db)).
Proof.
  intros Hrun Hok.
  destruct (update_success _ _ _ _ _ Hrun Hok)
    as (id & item & updates & Hid & Hfind & -> & -> & Hfound & Hstamp & Honly).
  assert (Hframe : forall k, fields (set_fields updates item) !! k
                             <> fields item !! k ->
            k = "updatedAt"
            \/ (k ∈ "price" :: update_fields /\ is_Some (body req !! k))).
  { intros k Hk. destruct (decide (k = "updatedAt")) as [|Hne]; [by left|].
    right. apply Honly; [exact Hne|].
    cbn [fields set_fields] in Hk.
    destruct (updates !! k) as [v|] eqn:Hu; [by eexists|].
    exfalso. apply Hk. rewrite lookup_union_r by exact Hu. reflexivity. }
  assert (Hkeep : forall k, k <> "updatedAt" ->
            ~ (k ∈ "price" :: update_fields /\ is_Some (body req !! k)) ->
            fields (set_fields updates item) !! k = fields item !! k).
  { intros k Hne Hnot. cbn [fields set_fields].
    destruct (updates !! k) as [v|] eqn:Hu.
    - destruct Hnot. apply Honly; [exact Hne | by eexists].
    - by apply lookup_union_r. }
  exists id, item, (set_fields updates item).
  split; [exact Hid|]. split; [exact Hfind|]. split; [exact Hfound|].
  split; [reflexivity|]. split; [exact Hframe|].
  split. { cbn [fields set_fields]. by rewrite (lookup_union_l' _ _ _ (mk_is_Some _ _ Hstamp)). }
  split.
  { intros k Hk. apply Hkeep.
    - intros ->. repeat (apply elem_of_cons in Hk as [Hk|Hk]; [discriminate|]).
      by apply elem_of_nil in Hk.
    - intros [Hin _]. unfold update_fields in Hin.
      repeat (apply elem_of_cons in Hk as [->|Hk];
              [repeat (apply elem_of_cons in Hin as [Hin|Hin]; [discriminate|]);
               by apply elem_of_nil in Hin|]).
      by apply elem_of_nil in Hk. }
  split.
  { intros Hbody k Hprice Hstampk. apply Hkeep; [exact Hstampk|].
    intros [_ [v Hv]]. rewrite (Hbody k Hprice) in Hv. discriminate. }
  split; [reflexivity|].
  split; [cbn [itemsCollection with_items]; apply length_updateOne|].
  intros id' Hne. cbn [itemsCollection with_items].
  apply findOne_updateOne_other. intros d Hd. unfold by_id in *.
  cbn [_id set_fields]. apply N.eqb_eq in Hd. rewrite Hd.
  split; by apply N.eqb_neq.
Qed.

(** [validatePriceValue] refuses exactly the prices that do not parse as a
    non-negative number. *)
Lemma validatePriceValue_valid (price : prop) :
  valid (validatePriceValue price) = true
  <-> Described.parses_non_negative price.
Proof.
  unfold validatePriceValue, Described.parses_non_negative, isNaN, lt, le.
  destruct (Number price) as [s|s| |s m e]; try destruct s; cbn;
    intuition discriminate.
Qed.

Lemma validatePriceValue_parsed (price : prop) :
  valid (validatePriceValue price) = true ->
  parsed (validatePriceValue price) = Some (Number price).
Proof.
  unfold validatePriceValue.
  destruct (isNaN (Number price) || lt (Number price) pos_zero);
    [discriminate | reflexivity].
Qed.

(** C7. When name, summary, description and category are given (truthy
    values) and a price is present, create fails with a validation error
    exactly when the price does not parse as a non-negative number; the
    prices -1 and "abc" are refused and nothing is stored, and the price 0
    is accepted: for an authenticated caller the item is created with
    price 0. *)
Theorem create_validates_price (now : Z) (fresh : ObjectId) (req : request)
  (db : DB) :
  truthy (body req !! "name") = true ->
  truthy (body req !! "summary") = true ->
  truthy (body req !! "description") = true ->
  truthy (body req !! "category") = true ->
  defined (body req !! "price") = true ->
  (status (fst (handleCreateProduct P now fresh req db)) = ValidationError
   <-> ~ Described.parses_non_negative (body req !! "price"))
  /\ (body req !! "price" = Some (VNum (of_Z (-1)))
      \/ body req !! "price" = Some (VStr "abc") ->
      handleCreateProduct P now fresh req db
      = (fail ValidationError "Price must be a valid positive number", db))
  /\ (body req !! "price" = Some (VNum (of_Z 0)) ->
      forall u, user req = Some u ->
      existsb (by_id fresh) (itemsCollection db) = false ->
      exists created,
        handleCreateProduct P now fresh req db
        = ({| status := 201; json := ItemJson (mapUserItem P created) |},
           with_items db (itemsCollection db ++ [created])%list)
        /\ fields created !! "price" = Some (VNum pos_zero)).
Proof.
  intros Hname Hsummary Hdescription Hcategory Hprice.
  unfold handleCreateProduct.
  rewrite Hname, Hsummary, Hdescription, Hcategory, Hprice. cbn [negb orb].
  split; [|split].
  - rewrite <- validatePriceValue_valid.
    destruct (valid (validatePriceValue (body req !! "price"))); cbn [negb].
    + split; [|congruence]. intros Hstatus. exfalso. revert Hstatus.
      destruct (user req); [|discriminate].
      destruct (insertOne _ _ _); [|discriminate].
      destruct (findOne _ _); discriminate.
    + split; [congruence | reflexivity].
  - intros [-> | ->]; reflexivity.
  - intros -> u -> Hfresh.
    change (validatePriceValue (Some (VNum (of_Z 0))))
      with {| valid := true; parsed := Some pos_zero |}.
    cbn [valid parsed negb option_map].
    destruct (insertOne fresh _ (itemsCollection db)) as [c'|] eqn:Hins.
    + destruct (findOne_insertOne _ _ _ _ Hins) as [-> ->].
      eexists. split; [reflexivity|].
      unfold buildProductDocument; cbn [fields list_to_map foldr fst snd uncurry].
      simplify_map_eq. lookup_literal. reflexivity.
    + unfold insertOne in Hins. rewrite Hfresh in Hins. discriminate.
Qed.

(** C8. The item a successful create stores has the placeholder image
    when the body has no image, priority "medium" when it has no priority,
    the ISO form of the current time as available date when it has none,
    and its [ownerId], [userId] and [ownerEmail] are those of the caller's
    token, whatever the body holds; both timestamps are the current time. *)
Theorem create_defaults_and_owner (now : Z) (fresh : ObjectId) (req : request)
  (db db' : DB) (r : response) :
  handleCreateProduct P now fresh req db = (r, db') ->
  status r = 201 ->
  exists u created,
    user req = Some u
    /\ _id created = fresh
    /\ itemsCollection db' = (itemsCollection db ++ [created])%list
    /\ r = {| status := 201; json := ItemJson (mapUserItem P created) |}
    /\ (body req !! "image" = None ->
        fields created !! "image" = Some (VStr DEFAULT_ITEM_IMAGE))
    /\ (body req !! "priority" = None ->
        fields created !! "priority" = Some (VStr "medium"))
    /\ (body req !! "availableDate" = None ->
        fields created !! "availableDate" = Some (VStr (toISOString now)))
    /\ fields created !! "ownerId" = Some (VStr (sub u))
    /\ fields created !! "userId" = Some (VStr (sub u))
    /\ fields created !! "ownerEmail" = Some (bson (email u))
    /\ fields created !! "createdAt" = Some (VDate now)
    /\ fields created !! "updatedAt" = Some (VDate now).
Proof.
  unfold handleCreateProduct.
  destruct (negb (truthy (body req !! "name")) || _ || _ || _ || _);
    [intros [= <- <-]; discriminate|].
  destruct (negb (valid _)); [intros [= <- <-]; discriminate|].
  destruct (user req) as [u|]; [|intros [= <- <-]; discriminate].
  destruct (insertOne _ _ _) as [c'|] eqn:Hins; [|intros [= <- <-]; discriminate].
  destruct (findOne_insertOne _ _ _ _ Hins) as [-> ->].
  intros [= <- <-] _.
  eexists u, {| _id := fresh; fields := _ |}.
  split; [reflexivity|]. split; [reflexivity|].
  split; [reflexivity|]. split; [reflexivity|].
  unfold buildProductDocument; cbn [fields list_to_map foldr fst snd uncurry].
  repeat split; try (intros Habsent); simplify_map_eq;
    lookup_literal; rewrite ?Habsent; reflexivity.
Qed.

End Items.

(** ** Accounts *)

Lemma truthy_string (s : string) : s <> "" -> truthy (Some (VStr s)) = true.
Proof.
  intros Hs. cbn. destruct (String.eqb_spec s ""); [contradiction | reflexivity].
Qed.

Lemma findOne_app (q : document -> bool) (c : collection) (d : document) :
  findOne q c = None ->
  findOne q (c ++ [d])%list = if q d then Some d else None.
Proof.
  unfold findOne. induction c as [|x r IH]; simpl; [reflexivity|].
  destruct (q x); [discriminate | exact IH].
Qed.


Section Accounts.

Variable P : Platform.


(** A password that is not a string is handed to [bcrypt.compare] when the
    email is a user's: the comparison rejects and login answers 500. *)
Lemma login_password_not_string (iat : Z) (req : request) (db : DB)
  (e : string) (u : document) :
  body req !! "email" = Some (VStr e) -> e <> "" ->
  truthy (body req !! "password") = true ->
  (forall p, body req !! "password" <> Some (VStr p)) ->
  findOne (by_email (toLowerCase e)) (usersCollection db) = Some u ->
  login P iat req db = (fail InternalError "Unable to login", db).
Proof.
  intros He Hne Hpw Hnot Hsome. unfold login.
  rewrite He, (truthy_string e Hne), Hpw. cbn. rewrite Hsome.
  unfold bcrypt_compare.
  destruct (body req !! "password") as [[ | | | p | ]|]; try reflexivity.
  by destruct (Hnot p).
Qed.

Lemma lower_char_idempotent (c : ascii) : lower_char (lower_char c) = lower_char c.
Proof.
  destruct c as [[] [] [] [] [] [] [] []]; reflexivity.
Qed.

Lemma toLowerCase_idempotent (s : string) :
  toLowerCase (toLowerCase s) = toLowerCase s.
Proof.
  induction s as [|c r IH]; simpl; [reflexivity|].
  by rewrite lower_char_idempotent, IH.
Qed.

Lemma emails_normalized_app (c : collection) (d : document) :
  emails_normalized c = true -> lowercase_email d = true ->
  emails_normalized (c ++ [d])%list = true.
Proof.
  unfold emails_normalized. intros Hc Hd. rewrite forallb_app, Hc. simpl.
  by rewrite Hd.
Qed.

Lemma emails_normalized_updateOne (q : document -> bool)
  (f : document -> document) (c : collection) :
  emails_normalized c = true ->
  (forall d, lowercase_email (f d) = true) ->
  emails_normalized (updateOne q f c) = true.
Proof.
  unfold emails_normalized. intros Hc Hf.
  induction c as [|x r IH]; simpl in *; [reflexivity|].
  apply andb_true_iff in Hc as [Hx Hr].
  destruct (q x); simpl.
  - by rewrite Hf, Hr.
  - by rewrite Hx, IH.
Qed.

Lemma lowercase_email_lower (e : string) (f : gmap string value) (id : ObjectId) :
  f !! "email" = Some (VStr (toLowerCase e)) ->
  lowercase_email {| _id := id; fields := f |} = true.
Proof.
  unfold lowercase_email. cbn [fields]. intros ->.
  rewrite toLowerCase_idempotent. apply String.eqb_refl.
Qed.

(** Every request leaves the emails of the users collection in lower
    case. *)
Lemma step_emails_normalized (db db' : DB) :
  step P db db' ->
  emails_normalized (usersCollection db) = true ->
  emails_normalized (usersCollection db') = true.
Proof.
  intros Hstep Hdb. destruct Hstep.
  - unfold register.
    destruct (negb _ || _ || _); [exact Hdb|].
    destruct (body req !! "email") as [[ | | | e | ]|]; try exact Hdb.
    cbn [call_toLowerCase].
    destruct (findOne _ _); [exact Hdb|].
    destruct (bcrypt_hash_js _ _ _); [|exact Hdb].
    unfold insertOne. destruct (existsb _ _); [exact Hdb|].
    cbn [snd usersCollection with_users].
    apply emails_normalized_app; [exact Hdb|].
    apply (lowercase_email_lower e). by simplify_map_eq.
  - unfold login.
    destruct (negb _ || _); [exact Hdb|].
    destruct (call_toLowerCase _); [|exact Hdb].
    destruct (findOne _ _); [|exact Hdb].
    destruct (bcrypt_compare _ _ _) as [[]|]; exact Hdb.
  - unfold oauth.
    destruct (key_differs _ _); [exact Hdb|].
    destruct (negb _ || _); [exact Hdb|].
    destruct (body req !! "email") as [[ | | | e | ]|]; try exact Hdb.
    cbn [call_toLowerCase]. unfold upsert_by_email.
    destruct (findOne _ _).
    + cbn [snd usersCollection with_users].
      apply emails_normalized_updateOne; [exact Hdb|].
      intros x. apply (lowercase_email_lower e). cbn [list_to_map foldr uncurry fst snd].
      by simplify_map_eq.
    + unfold insertOne. destruct (existsb _ _); [exact Hdb|].
      cbn [snd usersCollection with_users].
      apply emails_normalized_app; [exact Hdb|].
      apply (lowercase_email_lower e). cbn [list_to_map foldr uncurry fst snd].
      by simplify_map_eq.
  - unfold handleCreateProduct.
    destruct (negb _ || _ || _ || _ || _); [exact Hdb|].
    destruct (negb _); [exact Hdb|].
    destruct (user req); [|exact Hdb].
    destruct (insertOne _ _ _); [|exact Hdb].
    destruct (findOne _ _); exact Hdb.
  - unfold handleUpdateProduct.
    destruct (parse_oid _ _); [|exact Hdb].
    destruct (findOne _ _); [|exact Hdb].
    destruct (user req); [|exact Hdb].
    destruct (negb _); [exact Hdb|].
    destruct (if defined _ then _ else _); [|exact Hdb].
    destruct (Nat.eqb _ _); [exact Hdb|].
    destruct (findOne _ _); exact Hdb.
  - unfold handleDeleteProduct.
    destruct (parse_oid _ _); [|exact Hdb].
    destruct (findOne _ _); [|exact Hdb].
    destruct (user req); [|exact Hdb].
    destruct (negb _); exact Hdb.
Qed.

Lemma reachable_emails_normalized (db : DB) :
  reachable P db -> emails_normalized (usersCollection db) = true.
Proof.
  induction 1 as [|db db' _ IH Hstep]; [reflexivity|].
  by apply (step_emails_normalized db db').
Qed.


(** An accepted synchronisation: the answer is made from the document the
    upsert returns. *)
Lemma oauth_accepted (now iat : Z) (fresh : ObjectId) (req : request) (db : DB)
  (e : string) :
  key_differs P (x_internal_key req) = false ->
  body req !! "email" = Some (VStr e) -> e <> "" ->
  truthy (body req !! "name") = true ->
  oauth P now iat fresh req db =
  match upsert_by_email fresh (toLowerCase e)
          (oauth_set now (toLowerCase e) (body req !! "name")
             (body req !! "provider"))
          {[ "createdAt" := VDate now ]} (usersCollection db) with
  | Some (u, c') =>
      ({| status := 200;
          json := AuthJson (sanitizeUser P u) (buildToken P iat u) |},
       with_users db c')
  | None => (fail 500 "Unable to sync OAuth user", db)
  end.
Proof.
  intros Hkey He Hne Hname. unfold oauth.
  rewrite Hkey, He, (truthy_string e Hne), Hname. reflexivity.
Qed.

(** The upsert returns the document it leaves first under the email. *)
Lemma upsert_by_email_found (id : ObjectId) (e : string)
  (set ins : gmap string value) (c c' : collection) (u : document) :
  set !! "email" = Some (VStr e) ->
  upsert_by_email id e set ins c = Some (u, c') ->
  findOne (by_email e) c' = Some u
  /\ match findOne (by_email e) c with
     | Some d => u = set_fields set d
     | None => u = {| _id := id; fields := set ∪ ins ∪ {[ "email" := VStr e ]} |}
     end.
Proof.
  intros Hset. unfold upsert_by_email.
  assert (Hmatch : forall i f, by_email e {| _id := i; fields := set ∪ f |} = true).
  { intros i f. unfold by_email. cbn [fields]. apply strict_eq_str_true.
    by apply lookup_union_Some_l. }
  destruct (findOne (by_email e) c) as [d|] eqn:Hfind.
  - intros [= <- <-]. split; [|reflexivity].
    apply findOne_updateOne; [exact Hfind | apply Hmatch].
  - destruct (insertOne id _ c) as [c1|] eqn:Hins; [|discriminate].
    intros [= <- <-]. split; [|reflexivity].
    unfold insertOne in Hins. destruct (existsb _ _); [discriminate|].
    injection Hins as <-. rewrite findOne_app by exact Hfind.
    by rewrite <- (assoc_L (∪)), Hmatch.
Qed.

Lemma sanitizeUser_id (u : document) :
  sanitizeUser P u !! "id" = Some (VStr (oid_str P (_id u))).
Proof. unfold sanitizeUser. apply lookup_with_prop_eq. Qed.

(** C6. Two OAuth synchronisations in a row, with the internal key, for
    emails that are the same letter case apart: both succeed and answer
    with the same user id, and the second adds no user; after it the stored
    user has the name and the provider of the second request (["google"]
    when it names none) and [updatedAt] at its time, while [createdAt] is
    what it was after the first, the time of the first when the first
    created the user. *)
Theorem oauth_twice_same_user (now1 iat1 now2 iat2 : Z)
  (fresh1 fresh2 : ObjectId) (req1 req2 : request) (db : DB) (e1 e2 : string) :
  key_differs P (x_internal_key req1) = false ->
  key_differs P (x_internal_key req2) = false ->
  body req1 !! "email" = Some (VStr e1) -> e1 <> "" ->
  body req2 !! "email" = Some (VStr e2) -> e2 <> "" ->
  toLowerCase e1 = toLowerCase e2 ->
  truthy (body req1 !! "name") = true ->
  truthy (body req2 !! "name") = true ->
  existsb (by_id fresh1) (usersCollection db) = false ->
  exists u1 u2 db1 db2,
    oauth P now1 iat1 fresh1 req1 db
      = ({| status := 200;
            json := AuthJson (sanitizeUser P u1) (buildToken P iat1 u1) |}, db1)
    /\ oauth P now2 iat2 fresh2 req2 db1
      = ({| status := 200;
            json := AuthJson (sanitizeUser P u2) (buildToken P iat2 u2) |}, db2)
    /\ _id u2 = _id u1
    /\ sanitizeUser P u2 !! "id" = sanitizeUser P u1 !! "id"
    /\ findOne (by_email (toLowerCase e1)) (usersCollection db1) = Some u1
    /\ findOne (by_email (toLowerCase e1)) (usersCollection db2) = Some u2
    /\ length (usersCollection db2) = length (usersCollection db1)
    /\ fields u2 !! "name" = body req2 !! "name"
    /\ fields u2 !! "provider"
       = or_else (body req2 !! "provider") (Some (VStr "google"))
    /\ fields u2 !! "updatedAt" = Some (VDate now2)
    /\ fields u2 !! "createdAt" = fields u1 !! "createdAt"
    /\ (findOne (by_email (toLowerCase e1)) (usersCollection db) = None ->
        fields u2 !! "createdAt" = Some (VDate now1)).
Proof.
  intros Hkey1 Hkey2 He1 Hne1 He2 Hne2 Hsame Hname1 Hname2 Hfresh.
  rewrite (oauth_accepted now1 iat1 fresh1 req1 db e1) by assumption.
  destruct (upsert_by_email fresh1 _ _ _ (usersCollection db))
    as [[u1 c1]|] eqn:Hup1.
  2: { unfold upsert_by_email, insertOne in Hup1. rewrite Hfresh in Hup1.
       destruct (findOne _ _); discriminate. }
  assert (Hemail : forall now e n p,
            oauth_set now e n p !! "email" = Some (VStr e)) by reflexivity.
  destruct (upsert_by_email_found _ _ _ _ _ _ _ (Hemail _ _ _ _) Hup1)
    as [Hfound1 Hu1].
  exists u1. eexists. exists (with_users db c1). eexists.
  split; [reflexivity|].
  rewrite (oauth_accepted now2 iat2 fresh2 req2 _ e2) by assumption.
  cbn [usersCollection with_users]. rewrite <- Hsame.
  unfold upsert_by_email at 1. rewrite Hfound1.
  split; [reflexivity|].
  cbn [usersCollection with_users _id set_fields fields].
  split; [reflexivity|]. split; [by rewrite !sanitizeUser_id|].
  split; [reflexivity|].
  split.
  { apply findOne_updateOne; [exact Hfound1|].
    unfold by_email. cbn [fields set_fields]. apply strict_eq_str_true.
    by apply lookup_union_Some_l. }
  split; [apply length_updateOne|].
  assert (Hbson : forall p : prop, truthy p = true -> Some (bson p) = p).
  { intros [v|]; [reflexivity | discriminate]. }
  split. { erewrite lookup_union_Some_l; [apply (Hbson _ Hname2) | reflexivity]. }
  split.
  { erewrite lookup_union_Some_l; [|reflexivity]. apply Hbson.
    unfold or_else. destruct (truthy (body req2 !! "provider")) eqn:Hp;
      [exact Hp | reflexivity]. }
  split. { by erewrite lookup_union_Some_l. }
  assert (Hcreated : (oauth_set now2 (toLowerCase e1) (body req2 !! "name")
                        (body req2 !! "provider") ∪ fields u1) !! "createdAt"
                     = fields u1 !! "createdAt") by (by apply lookup_union_r).
  split; [exact Hcreated|].
  intros Hnew. rewrite Hcreated. rewrite Hnew in Hu1. subst u1.
  cbn [fields]. rewrite <- (assoc_L (∪)).
  rewrite lookup_union_r by reflexivity.
  by apply lookup_union_Some_l.
Qed.

End Accounts.

(** ** The bearer token *)

Lemma append_String (c : ascii) (s t : string) :
  String c s ++ t = String c (s ++ t).
Proof. reflexivity. Qed.

Lemma append_empty (t : string) : "" ++ t = t.
Proof. reflexivity. Qed.

Lemma starts_with_app (pat t : string) : starts_with pat (pat ++ t) = true.
Proof.
  induction pat as [|c r IH]; [reflexivity|].
  rewrite append_String. simpl. by rewrite Ascii.eqb_refl.
Qed.

Lemma starts_with_split (pat s : string) :
  starts_with pat s = true -> s = pat ++ drop (String.length pat) s.
Proof.
  revert s. induction pat as [|c r IH]; intros s; [reflexivity|].
  destruct s as [|d s']; [discriminate|]. simpl.
  intros [Hc Hr]%andb_true_iff. apply Ascii.eqb_eq in Hc as ->.
  rewrite append_String. f_equal. by apply IH.
Qed.

Lemma drop_app (pat t : string) : drop (String.length pat) (pat ++ t) = t.
Proof. induction pat as [|c r IH]; [reflexivity | exact IH]. Qed.

(** A header in which the pattern does not occur is left as it is. *)
Lemma remove_first_absent (pat s : string) :
  occurs pat s = false -> remove_first pat s = s.
Proof.
  induction s as [|c r IH]; simpl.
  - destruct (starts_with pat ""); [discriminate | reflexivity].
  - destruct (starts_with pat (String c r)); [discriminate|].
    simpl. intros H. by rewrite IH.
Qed.

(** A leading pattern is taken off. *)
Lemma remove_first_prefix (pat t : string) : remove_first pat (pat ++ t) = t.
Proof.
  destruct (pat ++ t) as [|c r] eqn:Hs; simpl; rewrite <- Hs;
    rewrite starts_with_app; apply drop_app.
Qed.

(** Otherwise the occurrence that starts first is taken out, and no other. *)
Lemma remove_first_occurs (pat s : string) :
  occurs pat s = true ->
  exists pre post,
    s = pre ++ pat ++ post
    /\ remove_first pat s = pre ++ post
    /\ forall pre' post', s = pre' ++ pat ++ post' ->
         (String.length pre <= String.length pre')%nat.
Proof.
  induction s as [|c r IH].
  - simpl. destruct (starts_with pat "") eqn:Hp; [|discriminate].
    intros _. exists "", (drop (String.length pat) "").
    split; [by apply starts_with_split|]. split; [reflexivity|].
    intros; simpl; lia.
  - cbn [occurs remove_first].
    destruct (starts_with pat (String c r)) eqn:Hp.
    + intros _. exists "", (drop (String.length pat) (String c r)).
      split; [by apply starts_with_split|]. split; [reflexivity|].
      intros; simpl; lia.
    + cbn [orb]. intros Hocc.
      destruct (IH Hocc) as (pre & post & Hs & Hrm & Hmin).
      exists (String c pre), post.
      split; [rewrite append_String; by rewrite <- Hs|].
      split; [rewrite append_String; by rewrite Hrm|].
      intros [|c' pre'] post' Heq.
      * rewrite append_empty in Heq. rewrite Heq, starts_with_app in Hp.
        discriminate.
      * rewrite append_String in Heq. injection Heq as <- Hr. simpl.
        specialize (Hmin _ _ Hr). lia.
Qed.

Section Guard.

Variable P : Platform.

(** C10. The guard takes as token the header less the first ["Bearer "]
    in it: a header in which ["Bearer "] does not occur is the token as it
    is, a leading ["Bearer "] is taken off, and otherwise the occurrence
    that starts first is taken out and no other. An empty token is answered
    401 "Authorization token missing" without verification; any other
    token is verified, and the guard lets the request through exactly when
    the verification succeeds: a bare valid token authenticates. *)
Theorem authGuard_bearer_optional (now : Z) (req : request) :
  (forall h, authorization req = Some h ->
     bearer_token req = remove_first "Bearer " h
     /\ (occurs "Bearer " h = false -> bearer_token req = h)
     /\ (forall t, h = "Bearer " ++ t -> bearer_token req = t)
     /\ (occurs "Bearer " h = true ->
         exists pre post,
           h = pre ++ "Bearer " ++ post
           /\ bearer_token req = pre ++ post
           /\ forall pre' post', h = pre' ++ "Bearer " ++ post' ->
                (String.length pre <= String.length pre')%nat))
  /\ (bearer_token req = "" ->
      authGuard P now req = inl (fail Unauthorized "Authorization token missing"))
  /\ (bearer_token req <> "" ->
      authGuard P now req
      = match jwt_verify P (bearer_token req) (JWT_SECRET P) now with
        | Some decoded => inr (set_user req decoded)
        | None => inl (fail Unauthorized "Invalid or expired token")
        end)
  /\ (forall t decoded,
        authorization req = Some t -> t <> "" ->
        occurs "Bearer " t = false ->
        jwt_verify P t (JWT_SECRET P) now = Some decoded ->
        authGuard P now req = inr (set_user req decoded)).
Proof.
  assert (Htoken : forall h, authorization req = Some h ->
            bearer_token req = remove_first "Bearer " h).
  { intros h Hh. unfold bearer_token, env_or. rewrite Hh.
    destruct (String.eqb_spec h ""); [by subst|reflexivity]. }
  assert (Hrun : bearer_token req <> "" ->
            authGuard P now req
            = match jwt_verify P (bearer_token req) (JWT_SECRET P) now with
              | Some decoded => inr (set_user req decoded)
              | None => inl (fail Unauthorized "Invalid or expired token")
              end).
  { intros Hne. unfold authGuard.
    destruct (String.eqb_spec (bearer_token req) ""); [contradiction|reflexivity]. }
  split; [|split; [|split]].
  - intros h Hh. rewrite (Htoken h Hh).
    split; [reflexivity|]. split; [apply remove_first_absent|].
    split; [intros t ->; apply remove_first_prefix|].
    apply remove_first_occurs.
  - intros Hempty. unfold authGuard. rewrite Hempty. reflexivity.
  - exact Hrun.
  - intros t decoded Ht Hne Hbare Hvalid.
    assert (Hbearer : bearer_token req = t)
      by (rewrite (Htoken t Ht); by apply remove_first_absent).
    rewrite Hrun by (rewrite Hbearer; exact Hne).
    by rewrite Hbearer, Hvalid.
Qed.

(** A protected route runs its handler for the caller the token names. *)
Lemma guarded_authenticated (now : Z)
  (handler : request -> DB -> response * DB) (req : request) (db : DB)
  (decoded : Claims) :
  bearer_token req <> "" ->
  jwt_verify P (bearer_token req) (JWT_SECRET P) now = Some decoded ->
  guarded P now handler req db = handler (set_user req decoded) db.
Proof.
  intros Hne Hvalid. unfold guarded, authGuard.
  destruct (String.eqb_spec (bearer_token req) ""); [contradiction|].
  by rewrite Hvalid.
Qed.

(** It answers 401, and leaves the store alone, for any other request. *)
Lemma guarded_rejected (now : Z)
  (handler : request -> DB -> response * DB) (req : request) (db : DB) :
  bearer_token req = ""
  \/ jwt_verify P (bearer_token req) (JWT_SECRET P) now = None ->
  status (fst (guarded P now handler req db)) = Unauthorized
  /\ snd (guarded P now handler req db) = db.
Proof.
  unfold guarded, authGuard. intros [Hempty | Hinvalid].
  - rewrite Hempty. split; reflexivity.
  - destruct (String.eqb (bearer_token req) ""); [split; reflexivity|].
    rewrite Hinvalid. split; reflexivity.
Qed.

End Guard.

(** ** The public listing *)







Lemma lower_char_newline (d : ascii) :
  Ascii.eqb d Regex.newline = Ascii.eqb Regex.newline (lower_char d).
Proof. destruct d as [[] [] [] [] [] [] [] []]; reflexivity. Qed.




Lemma older_asym (a b : document) : older a b = true -> older b a = false.
Proof.
  unfold older. destruct (created a), (created b); try reflexivity; try discriminate.
  intros H%Z.ltb_lt. apply Z.ltb_ge. lia.
Qed.

Lemma not_older_trans (a b c : document) :
  not_older a b -> not_older b c -> not_older a c.
Proof.
  unfold not_older, older.
  destruct (created a), (created b), (created c);
    try reflexivity; try discriminate.
  intros H1%Z.ltb_ge H2%Z.ltb_ge. apply Z.ltb_ge. lia.
Qed.

Lemma insert_desc_perm (x : document) (l : collection) :
  Permutation (insert_desc x l) (x :: l).
Proof.
  induction l as [|y r IH]; simpl; [reflexivity|].
  destruct (older x y); [|reflexivity].
  rewrite IH. apply perm_swap.
Qed.

Lemma sort_desc_perm (c : collection) : Permutation (sort_desc c) c.
Proof.
  induction c as [|x r IH]; simpl; [reflexivity|].
  unfold sort_desc in *. simpl. rewrite insert_desc_perm. by constructor.
Qed.

Lemma insert_desc_sorted (x : document) (l : collection) :
  StronglySorted not_older l -> StronglySorted not_older (insert_desc x l).
Proof.
  induction 1 as [|y r Hr IH Hy]; simpl.
  - repeat constructor.
  - destruct (older x y) eqn:Hxy.
    + constructor; [exact IH|].
      rewrite insert_desc_perm.
      constructor; [by apply older_asym | exact Hy].
    + constructor; [by constructor|].
      constructor; [exact Hxy|].
      eapply Forall_impl; [exact Hy|]. intros z Hz.
      by apply (not_older_trans x y z).
Qed.

Lemma sort_desc_sorted (c : collection) : StronglySorted not_older (sort_desc c).
Proof.
  induction c as [|x r IH]; [constructor|].
  by apply insert_desc_sorted.
Qed.



Section Listing.

Variable P : Platform.


End Listing.

(** ** The properties on the sample platform *)

Example number_of_strings :
  Number (Some (VStr "12.5")) = S754_finite false 7036874417766400 (-49)
  /\ Number (Some (VStr " 42 ")) = of_Z 42
  /\ Number (Some (VStr "0x10")) = of_Z 16
  /\ Number (Some (VStr "")) = pos_zero
  /\ Number (Some (VStr "abc")) = NaN
  /\ Number (Some (VStr "1e-400")) = pos_zero
  /\ Number (Some (VStr "-1")) = of_Z (-1).
Proof. repeat split; reflexivity. Qed.

(** The no-break space is white space, as a UTF-8 sequence and as a byte
    of its own; so are the other spaces of Unicode. *)
Example white_space :
  let bytes l := string_of_list_ascii (List.map ascii_of_N l) in
  Number (Some (VStr (bytes [ 194; 160; 53 ]%N))) = of_Z 5
  /\ Number (Some (VStr (bytes [ 160; 53 ]%N))) = of_Z 5
  /\ Number (Some (VStr (bytes [ 226; 128; 137; 53; 239; 187; 191; 10 ]%N)))
     = of_Z 5
  /\ Number (Some (VStr (bytes [ 53; 195; 160 ]%N))) = NaN
  /\ trim (bytes [ 32; 195; 160; 32; 97; 227; 128; 128 ]%N)
     = bytes [ 195; 160; 32; 97 ]%N.
Proof. repeat split; vm_compute; reflexivity. Qed.

Example iso_dates :
  toISOString 0 = "1970-01-01T00:00:00.000Z"
  /\ toISOString 1736519400000 = "2025-01-10T14:30:00.000Z"
  /\ toISOString 1709164800123 = "2024-02-29T00:00:00.123Z"
  /\ toISOString (-1) = "1969-12-31T23:59:59.999Z"
  /\ toISOString 253402300799999 = "9999-12-31T23:59:59.999Z"
  /\ toISOString 253402300800000 = "+010000-01-01T00:00:00.000Z"
  /\ toISOString (-62167219200001) = "-000001-12-31T23:59:59.999Z".
Proof. repeat split; reflexivity. Qed.

Example patterns :
  Regex.test_i "ou" "SOUP" = Some true
  /\ Regex.test_i "." "Soup" = Some true
  /\ Regex.test_i "^starter$" "Starter" = Some true
  /\ Regex.test_i "^main$" "Main course" = Some false
  /\ Regex.test_i "a\.b" "xacb" = Some false
  /\ Regex.test_i "a*" "aaa" = None.
Proof. repeat split; reflexivity. Qed.

Example ann_logs_in :
  status
    (fst (login Sample.platform 20
            (Sample.anonymous (Sample.credentials "ANN@example.com" (VStr "secret")))
            Sample.members))
  = 200.
Proof. reflexivity. Qed.

Example bearer_tokens :
  bearer_token (Sample.as_user "" "" ∅) = ""
  /\ remove_first "Bearer " "Bearer abc" = "abc"
  /\ remove_first "Bearer " "abc" = "abc"
  /\ remove_first "Bearer " "x Bearer Bearer y" = "x Bearer y".
Proof. repeat split; reflexivity. Qed.

(** User V may neither edit nor delete the item of user U. *)
Lemma ownership_guard_witness :
  handleUpdateProduct Sample.platform 2000
    (Sample.as_user "V" (Sample.oid_hex 1%N) Sample.price_only) Sample.menu
  = (fail Forbidden "You can only edit your own products", Sample.menu)
  /\ handleDeleteProduct Sample.platform
       (Sample.as_user "V" (Sample.oid_hex 1%N) Sample.price_only) Sample.menu
     = (fail Forbidden "You can only delete your own products", Sample.menu).
Proof.
  refine (proj1 (ownership_guard Sample.platform 2000 _ _ 1%N _ _ _ _ _) _).
  - reflexivity.
  - reflexivity.
  - reflexivity.
  - split; intros H; vm_compute in H; discriminate H.
Defined.



(** A new price for the soup: its name and its owner stay. *)
Lemma update_changes_only_requested_witness :
  exists item',
    findOne (by_id 1%N)
      (itemsCollection
         (snd (handleUpdateProduct Sample.platform 2000
                 (Sample.as_user "U" (Sample.oid_hex 1%N) Sample.price_only)
                 Sample.menu)))
    = Some item'
    /\ fields item' !! "name" = Some (VStr "Soup")
    /\ fields item' !! "ownerId" = Some (VStr "U").
Proof.
  destruct (update_changes_only_requested Sample.platform 2000
              (Sample.as_user "U" (Sample.oid_hex 1%N) Sample.price_only)
              Sample.menu _ _ (surjective_pairing _))
    as (id & item & item' & Hid & Hfind & Hfound & _ & _ & _ & Howner & Hprice & _).
  - reflexivity.
  - injection Hid as <-. injection Hfind as <-.
    exists item'. split; [exact Hfound|]. split.
    + rewrite Hprice; [reflexivity | | discriminate | discriminate].
      intros k Hk. by apply lookup_singleton_ne.
    + rewrite Howner; [reflexivity|]. apply elem_of_cons. by left.
Defined.

(** The soup at the price "abc" is refused. *)
Lemma create_validates_price_witness :
  handleCreateProduct Sample.platform 1000 2%N
    (Sample.as_user "U" "" (<[ "price" := VStr "abc" ]> Sample.soup_body))
    Sample.menu
  = (fail ValidationError "Price must be a valid positive number", Sample.menu).
Proof.
  refine (proj1 (proj2 (create_validates_price Sample.platform 1000 2%N _ _
                          _ _ _ _ _)) _); try reflexivity.
  right. reflexivity.
Defined.

(** The soup of the menu: owner U, though the body named V. *)
Lemma create_defaults_and_owner_witness :
  exists created,
    itemsCollection Sample.menu = [created]
    /\ fields created !! "image" = Some (VStr DEFAULT_ITEM_IMAGE)
    /\ fields created !! "priority" = Some (VStr "medium")
    /\ fields created !! "ownerId" = Some (VStr "U").
Proof.
  destruct (create_defaults_and_owner Sample.platform 1736519400000 1%N
              (Sample.as_user "U" "" Sample.soup_body) Sample.empty_db
              _ _ (surjective_pairing _))
    as (u & created & Hu & _ & Hitems & _ & Himage & Hpriority & _ & Howner & _).
  - reflexivity.
  - injection Hu as <-. exists created.
    split; [exact Hitems|]. split; [by apply Himage|].
    split; [by apply Hpriority | exact Howner].
Defined.





(** Two synchronisations of one Google account. *)
Lemma oauth_twice_same_user_witness :
  exists u1 u2,
    fst (oauth Sample.platform 40 40 9%N
           (Sample.sync (Sample.profile "Bob@Example.com" "Bob")) Sample.members)
    = {| status := 200;
         json := AuthJson (sanitizeUser Sample.platform u1)
                   (buildToken Sample.platform 40 u1) |}
    /\ _id u2 = _id u1
    /\ fields u2 !! "name" = Some (VStr "Robert")
    /\ fields u2 !! "createdAt" = Some (VDate 40).
Proof.
  destruct (oauth_twice_same_user Sample.platform 40 40 50 50 9%N 10%N
              (Sample.sync (Sample.profile "Bob@Example.com" "Bob"))
              (Sample.sync (Sample.profile "bob@example.com" "Robert"))
              Sample.members "Bob@Example.com" "bob@example.com")
    as (u1 & u2 & db1 & db2 & H1 & _ & Hid & _ & _ & _ & _ & Hname & _ & _ & _ & Hnew);
    try reflexivity; try discriminate.
  exists u1, u2. rewrite H1.
  split; [reflexivity|]. split; [exact Hid|]. split; [exact Hname|].
  by apply Hnew.
Defined.



(** ** What the handlers write *)


Lemma validatePriceValue_cases (price : prop) :
  (valid (validatePriceValue price) = false
   /\ parsed (validatePriceValue price) = None)
  \/ (valid (validatePriceValue price) = true
      /\ parsed (validatePriceValue price) = Some (Number price)
      /\ isNaN (Number price) = false /\ lt (Number price) pos_zero = false).
Proof.
  unfold validatePriceValue.
  destruct (isNaN (Number price)) eqn:Hnan; [left; split; reflexivity|].
  destruct (lt (Number price) pos_zero) eqn:Hlt; [left; split; reflexivity|].
  right. repeat split; reflexivity.
Qed.

Section Effects.

Variable P : Platform.

(** [handleCreateProduct] either leaves the store as it is, with an answer
    that is not 201, or answers 201 and appends one well-formed item under
    the identifier it was given, which was unused. *)
Lemma create_effect (now : Z) (fresh : ObjectId) (req : request) (db db' : DB)
  (r : response) :
  handleCreateProduct P now fresh req db = (r, db') ->
  (db' = db /\ status r <> 201)
  \/ (exists u f,
        user req = Some u
        /\ existsb (by_id fresh) (itemsCollection db) = false
        /\ db' = with_items db
                   (itemsCollection db ++ [ {| _id := fresh; fields := f |} ])%list
        /\ r = {| status := 201;
                  json := ItemJson (mapUserItem P {| _id := fresh; fields := f |}) |}
        /\ priced f
        /\ f !! "ownerId" = Some (VStr (sub u))
        /\ f !! "userId" = Some (VStr (sub u))
        /\ f !! "createdAt" = Some (VDate now)
        /\ f !! "ownerEmail" = Some (bson (email u))
        /\ (forall k, k ∈ [ "name"; "summary"; "description"; "category" ] ->
              f !! k = body req !! k)).
Proof.
  unfold handleCreateProduct.
  destruct (negb (truthy (body req !! "name")) || _ || _ || _ || _) eqn:Hreq;
    [intros [= <- <-]; left; split; [reflexivity | discriminate]|].
  destruct (validatePriceValue_cases (body req !! "price"))
    as [[-> _] | (-> & Hparsed & Hnan & Hlt)];
    [intros [= <- <-]; left; split; [reflexivity | discriminate]|].
  cbn [negb].
  destruct (user req) as [u|];
    [|intros [= <- <-]; left; split; [reflexivity | discriminate]].
  destruct (insertOne _ _ _) as [c'|] eqn:Hins;
    [|intros [= <- <-]; left; split; [reflexivity | discriminate]].
  destruct (findOne_insertOne _ _ _ _ Hins) as [-> ->].
  intros [= <- <-]. right. eexists u, _.
  split; [reflexivity|].
  split. { unfold insertOne in Hins. by destruct (existsb _ _). }
  split; [reflexivity|]. split; [reflexivity|].
  repeat rewrite orb_false_iff in Hreq.
  destruct Hreq as ((((Hname & Hsummary) & Hdescription) & Hcategory) & _).
  apply negb_false_iff in Hname, Hsummary, Hdescription, Hcategory.
  unfold buildProductDocument. cbn [list_to_map foldr fst snd uncurry].
  rewrite Hparsed. cbn [option_map].
  split.
  { exists (Number (body req !! "price")). simplify_map_eq. lookup_literal.
    repeat split; assumption. }
  split; [by simplify_map_eq|]. split; [by simplify_map_eq|].
  split; [by simplify_map_eq|]. split; [by simplify_map_eq|].
  intros k Hk.
  repeat (apply elem_of_cons in Hk as [->|Hk];
          [simplify_map_eq; lookup_literal;
           match goal with
           | |- context [body req !! ?key] => destruct (body req !! key)
           end; [reflexivity | discriminate]|]).
  by apply elem_of_nil in Hk.
Qed.

(** [handleUpdateProduct] either leaves the store as it is, with an answer
    that is not 200, or answers 200 and writes, over the item the caller
    owns, the time, the listed fields as the body has them and the price
    as a number that is not below zero. *)
Lemma update_effect (now : Z) (req : request) (db db' : DB) (r : response) :
  handleUpdateProduct P now req db = (r, db') ->
  (db' = db /\ status r <> 200)
  \/ (exists id item u updates,
        parse_oid P (param_id req) = Some id
        /\ findOne (by_id id) (itemsCollection db) = Some item
        /\ user req = Some u
        /\ ensureOwnership (Some item) (sub u) = true
        /\ db' = with_items db
                   (updateOne (by_id id) (set_fields updates) (itemsCollection db))
        /\ r = {| status := 200;
                  json := ItemJson (mapUserItem P (set_fields updates item)) |}
        /\ updates !! "updatedAt" = Some (VDate now)
        /\ (forall k, k ∈ update_fields -> updates !! k = body req !! k)
        /\ ((updates !! "price" = None /\ body req !! "price" = None)
            \/ (updates !! "price" = Some (VNum (Number (body req !! "price")))
                /\ isNaN (Number (body req !! "price")) = false
                /\ lt (Number (body req !! "price")) pos_zero = false))
        /\ (forall k, k ∉ "updatedAt" :: "price" :: update_fields ->
              updates !! k = None)).
Proof.
  unfold handleUpdateProduct.
  destruct (parse_oid P (param_id req)) as [id|] eqn:Hid;
    [|intros [= <- <-]; left; split; [reflexivity | discriminate]].
  destruct (findOne (by_id id) (itemsCollection db)) as [item|] eqn:Hfind;
    [|intros [= <- <-]; left; split; [reflexivity | discriminate]].
  destruct (findOne_by_id _ _ _ Hfind) as [Hitem _]. rewrite Hitem.
  destruct (user req) as [u|];
    [|intros [= <- <-]; left; split; [reflexivity | discriminate]].
  destruct (ensureOwnership (Some item) (sub u)) eqn:Hown;
    [|intros [= <- <-]; left; split; [reflexivity | discriminate]].
  cbn [negb].
  assert (Hcopy : forall k, k ∈ update_fields ->
            copy_fields (body req) !! k = body req !! k).
  { intros k Hk. rewrite lookup_copy_fields. by rewrite decide_True. }
  assert (Hcopy_out : forall k, k ∉ update_fields ->
            copy_fields (body req) !! k = None).
  { intros k Hk. rewrite lookup_copy_fields. by rewrite decide_False. }
  assert (Hnot_listed : forall k, k ∈ update_fields ->
            k <> "price" /\ k <> "updatedAt").
  { intros k Hk. unfold update_fields in Hk.
    repeat (apply elem_of_cons in Hk as [->|Hk]; [split; discriminate|]).
    by apply elem_of_nil in Hk. }
  set (priced_updates := if defined (body req !! "price") then _ else _).
  assert (Hshape : forall upd, priced_updates = Some upd ->
            (forall k, k <> "price" -> upd !! k = copy_fields (body req) !! k)
            /\ ((upd !! "price" = None /\ body req !! "price" = None)
                \/ (upd !! "price" = Some (VNum (Number (body req !! "price")))
                    /\ isNaN (Number (body req !! "price")) = false
                    /\ lt (Number (body req !! "price")) pos_zero = false))).
  { subst priced_updates. intros upd.
    destruct (body req !! "price") as [pv|] eqn:Hprice; cbn [defined].
    - destruct (validatePriceValue_cases (Some pv))
        as [[-> _] | (-> & -> & Hnan & Hlt)]; [discriminate|].
      cbn [negb option_map]. intros Hupd. apply (inj Some) in Hupd.
      subst upd. split.
      + intros k Hk. by rewrite lookup_with_prop_ne.
      + right. rewrite lookup_with_prop_eq. by repeat split.
    - intros Hupd. apply (inj Some) in Hupd. subst upd.
      split; [reflexivity|]. left. split; [|reflexivity].
      apply Hcopy_out. intros Hin. by destruct (Hnot_listed _ Hin). }
  destruct priced_updates as [upd|];
    [|intros [= <- <-]; left; split; [reflexivity | discriminate]].
  destruct (Hshape upd eq_refl) as [Hrest Hprice].
  destruct (Nat.eqb (size upd) 0);
    [intros [= <- <-]; left; split; [reflexivity | discriminate]|].
  erewrite findOne_updateOne;
    [| exact Hfind | unfold by_id; cbn [_id set_fields]; rewrite Hitem;
                     apply N.eqb_refl].
  intros [= <- <-]. right.
  exists id, item, u, (<["updatedAt" := VDate now]> upd).
  split; [reflexivity|]. split; [exact Hfind|]. split; [reflexivity|].
  split; [exact Hown|]. split; [reflexivity|]. split; [reflexivity|].
  split; [apply lookup_insert_eq|].
  split.
  { intros k Hk. destruct (Hnot_listed k Hk) as [Hp Hu].
    rewrite lookup_insert_ne by congruence. rewrite Hrest by exact Hp.
    by apply Hcopy. }
  split. { by rewrite lookup_insert_ne. }
  intros k Hk. apply not_elem_of_cons in Hk as [Hu Hk].
  apply not_elem_of_cons in Hk as [Hp Hk].
  rewrite lookup_insert_ne by congruence. rewrite Hrest by exact Hp.
  by apply Hcopy_out.
Qed.

(** [handleDeleteProduct] either leaves the store as it is, with an answer
    that is not 200, or answers 200 and removes the item the caller owns. *)
Lemma delete_effect (req : request) (db db' : DB) (r : response) :
  handleDeleteProduct P req db = (r, db') ->
  (db' = db /\ status r <> 200)
  \/ (exists id item u,
        parse_oid P (param_id req) = Some id
        /\ findOne (by_id id) (itemsCollection db) = Some item
        /\ user req = Some u
        /\ ensureOwnership (Some item) (sub u) = true
        /\ db' = with_items db (deleteOne (by_id id) (itemsCollection db))
        /\ r = {| status := 200; json := Message "Product deleted" |}).
Proof.
  unfold handleDeleteProduct.
  destruct (parse_oid P (param_id req)) as [id|] eqn:Hid;
    [|intros [= <- <-]; left; split; [reflexivity | discriminate]].
  destruct (findOne (by_id id) (itemsCollection db)) as [item|] eqn:Hfind;
    [|intros [= <- <-]; left; split; [reflexivity | discriminate]].
  destruct (findOne_by_id _ _ _ Hfind) as [Hitem _]. rewrite Hitem.
  destruct (user req) as [u|];
    [|intros [= <- <-]; left; split; [reflexivity | discriminate]].
  destruct (ensureOwnership (Some item) (sub u)) eqn:Hown;
    intros [= <- <-]; [right | left; split; [reflexivity | discriminate]].
  exists id, item, u. repeat split; reflexivity || assumption.
Qed.


(** [register] either leaves the store as it is, with an answer that is not
    201, or answers 201 and appends one user, under an email in lower case
    that no user had, with the hash of the password. *)
Lemma register_effect (created updated iat : Z) (fresh : ObjectId)
  (salt : string) (req : request) (db db' : DB) (r : response) :
  register P created updated iat fresh salt req db = (r, db') ->
  (db' = db /\ status r <> 201)
  \/ (exists e p u,
        body req !! "email" = Some (VStr e)
        /\ body req !! "password" = Some (VStr p)
        /\ u = {| _id := fresh;
                  fields := registered (body req !! "name") (toLowerCase e)
                              (bcrypt_hash P p salt) created updated |}
        /\ findOne (by_email (toLowerCase e)) (usersCollection db) = None
        /\ existsb (by_id fresh) (usersCollection db) = false
        /\ db' = with_users db (usersCollection db ++ [u])%list
        /\ r = {| status := 201;
                  json := AuthJson (sanitizeUser P u) (buildToken P iat u) |}).
Proof.
  unfold register.
  destruct (negb _ || _ || _);
    [intros [= <- <-]; left; split; [reflexivity | discriminate]|].
  destruct (body req !! "email") as [[ | | | e | ]|];
    try (intros [= <- <-]; left; split; [reflexivity | discriminate]).
  cbn [call_toLowerCase].
  destruct (findOne _ _) eqn:Hfind;
    [intros [= <- <-]; left; split; [reflexivity | discriminate]|].
  destruct (body req !! "password") as [[ | | | p | ]|];
    try (intros [= <- <-]; left; split; [reflexivity | discriminate]).
  cbn [bcrypt_hash_js]. unfold insertOne.
  destruct (existsb _ _) eqn:Hfresh;
    intros [= <- <-]; [left; split; [reflexivity | discriminate]|].
  right. exists e, p. eexists. repeat split; reflexivity || assumption.
Qed.

(** [login] never writes. *)
Lemma login_effect (iat : Z) (req : request) (db : DB) :
  snd (login P iat req db) = db.
Proof.
  unfold login.
  destruct (negb _ || _); [reflexivity|].
  destruct (call_toLowerCase _); [|reflexivity].
  destruct (findOne _ _); [|reflexivity].
  destruct (bcrypt_compare _ _ _) as [[]|]; reflexivity.
Qed.

(** [oauth] either leaves the store as it is, with an answer that is not
    200, or answers 200, with the internal key, and writes the profile over
    the user of that email or appends a user for it. *)
Lemma oauth_effect (now iat : Z) (fresh : ObjectId) (req : request)
  (db db' : DB) (r : response) :
  oauth P now iat fresh req db = (r, db') ->
  (db' = db /\ status r <> 200)
  \/ (exists e u,
        x_internal_key req = Some (INTERNAL_API_KEY P)
        /\ body req !! "email" = Some (VStr e)
        /\ r = {| status := 200;
                  json := AuthJson (sanitizeUser P u) (buildToken P iat u) |}
        /\ let set := oauth_set now (toLowerCase e) (body req !! "name")
                        (body req !! "provider") in
           match findOne (by_email (toLowerCase e)) (usersCollection db) with
           | Some d =>
               u = set_fields set d
               /\ db' = with_users db
                          (updateOne (by_email (toLowerCase e)) (set_fields set)
                             (usersCollection db))
           | None =>
               u = {| _id := fresh;
                      fields := set ∪ {[ "createdAt" := VDate now ]}
                                ∪ {[ "email" := VStr (toLowerCase e) ]} |}
               /\ existsb (by_id fresh) (usersCollection db) = false
               /\ db' = with_users db (usersCollection db ++ [u])%list
           end).
Proof.
  unfold oauth, key_differs.
  destruct (x_internal_key req) as [k|];
    [|intros [= <- <-]; left; split; [reflexivity | discriminate]].
  destruct (String.eqb_spec k (INTERNAL_API_KEY P)) as [->|];
    [|intros [= <- <-]; left; split; [reflexivity | discriminate]].
  cbn [negb].
  destruct (negb _ || _);
    [intros [= <- <-]; left; split; [reflexivity | discriminate]|].
  destruct (body req !! "email") as [[ | | | e | ]|];
    try (intros [= <- <-]; left; split; [reflexivity | discriminate]).
  cbn [call_toLowerCase]. unfold upsert_by_email.
  destruct (findOne _ _) as [d|] eqn:Hfind.
  - intros [= <- <-]. right. exists e. eexists.
    split; [reflexivity|]. split; [reflexivity|]. split; [reflexivity|].
    lazy beta iota zeta. rewrite Hfind. split; reflexivity.
  - unfold insertOne. destruct (existsb _ _) eqn:Hfresh;
      intros [= <- <-]; [left; split; [reflexivity | discriminate]|].
    right. exists e. eexists.
    split; [reflexivity|]. split; [reflexivity|]. split; [reflexivity|].
    lazy beta iota zeta. rewrite Hfind. repeat split; reflexivity || assumption.
Qed.

End Effects.

(** ** Invariants of the store *)

Lemma existsb_by_id (id : ObjectId) (c : collection) :
  existsb (by_id id) c = false -> id ∉ _id <$> c.
Proof.
  induction c as [|d r IH]; cbn [existsb fmap list_fmap].
  - intros _. apply not_elem_of_nil.
  - intros [Hd Hr]%orb_false_iff. apply not_elem_of_cons. split; [|by apply IH].
    unfold by_id in Hd. apply N.eqb_neq in Hd. congruence.
Qed.

Lemma findOne_by_email_None (e : string) (c : collection) :
  findOne (by_email e) c = None -> Some (VStr e) ∉ email_of <$> c.
Proof.
  unfold findOne. induction c as [|d r IH]; cbn [List.find fmap list_fmap].
  - intros _. apply not_elem_of_nil.
  - destruct (by_email e d) eqn:Hd; [discriminate|]. intros Hr.
    apply not_elem_of_cons. split; [|by apply IH].
    unfold by_email in Hd. apply strict_eq_str_false in Hd.
    unfold email_of. congruence.
Qed.

Lemma fmap_updateOne {A} (g : document -> A) (q : document -> bool)
  (f : document -> document) (c : collection) :
  (forall d, q d = true -> g (f d) = g d) ->
  g <$> updateOne q f c = g <$> c.
Proof.
  intros Hg. induction c as [|d r IH]; [reflexivity|].
  cbn [updateOne]. destruct (q d) eqn:Hq; cbn [fmap list_fmap].
  - by rewrite Hg.
  - f_equal. exact IH.
Qed.

Lemma deleteOne_sublist (q : document -> bool) (c : collection) :
  sublist (deleteOne q c) c.
Proof.
  induction c as [|d r IH]; cbn [deleteOne]; [constructor|].
  destruct (q d); [by apply sublist_cons | by apply sublist_skip].
Qed.

Lemma unique_ids_deleteOne (q : document -> bool) (c : collection) :
  unique_ids c -> unique_ids (deleteOne q c).
Proof.
  unfold unique_ids. intros Hc. eapply sublist_NoDup; [exact Hc|].
  apply fmap_sublist, deleteOne_sublist.
Qed.

Lemma Forall_deleteOne (Q : document -> Prop) (q : document -> bool)
  (c : collection) :
  Forall Q c -> Forall Q (deleteOne q c).
Proof.
  intros Hc. induction Hc as [|d r Hd Hr IH]; cbn [deleteOne]; [constructor|].
  destruct (q d); [exact Hr | by constructor].
Qed.

Lemma unique_app {A} (g : document -> A) (c : collection) (d : document) :
  NoDup (g <$> c) -> g d ∉ g <$> c -> NoDup (g <$> (c ++ [d])%list).
Proof.
  intros Hc Hd. rewrite fmap_app. apply NoDup_app.
  split; [exact Hc|]. split; [|apply NoDup_singleton].
  intros x Hx Hin. apply list_elem_of_singleton in Hin. by subst.
Qed.

Lemma well_formed_updateOne (q : document -> bool) (f : document -> document)
  (c : collection) :
  Forall well_formed_item c ->
  (forall d, well_formed_item d -> well_formed_item (f d)) ->
  Forall well_formed_item (updateOne q f c).
Proof.
  intros Hc Hf. induction Hc as [|d r Hd Hr IH]; cbn [updateOne]; [constructor|].
  destruct (q d); constructor; auto.
Qed.

Section Invariants.

Variable P : Platform.

(** Every request keeps the store consistent: identifiers and emails stay
    unique, items keep a price that is not below zero and one owner. *)
Lemma step_consistent (db db' : DB) :
  step P db db' -> consistent db -> consistent db'.
Proof.
  intros Hstep [Huid Hemail Hiid Hwf].
  destruct Hstep as [t1 t2 iat fresh salt req | iat req | now iat fresh req
                    | now fresh req | now req | req].
  - destruct (register P t1 t2 iat fresh salt req db)
      as [r db'] eqn:Hrun. cbn [snd].
    destruct (register_effect P _ _ _ _ _ _ _ _ _ Hrun)
      as [[-> _] | (e & p & u & _ & _ & -> & Hnone & Hfresh & -> & _)];
      [by constructor|].
    constructor; cbn [usersCollection itemsCollection with_users]; try assumption.
    + apply (unique_app _id); [exact Huid | by apply existsb_by_id].
    + apply (unique_app email_of); [exact Hemail|].
      by apply findOne_by_email_None in Hnone.
  - rewrite login_effect. by constructor.
  - destruct (oauth P now iat fresh req db) as [r db'] eqn:Hrun. cbn [snd].
    destruct (oauth_effect P _ _ _ _ _ _ _ Hrun)
      as [[-> _] | (e & u & _ & _ & _ & Hcase)]; [by constructor|].
    lazy zeta in Hcase.
    destruct (findOne (by_email (toLowerCase e)) (usersCollection db))
      as [d|] eqn:Hfind.
    + destruct Hcase as [_ ->].
      constructor; cbn [usersCollection itemsCollection with_users];
        try assumption.
      * unfold unique_ids. by rewrite fmap_updateOne.
      * unfold unique_emails. rewrite fmap_updateOne; [exact Hemail|].
        intros x Hx. unfold by_email in Hx. apply strict_eq_str_true in Hx.
        unfold email_of. cbn [fields set_fields]. rewrite Hx.
        by apply lookup_union_Some_l.
    + destruct Hcase as (-> & Hfresh & ->).
      constructor; cbn [usersCollection itemsCollection with_users];
        try assumption.
      * apply (unique_app _id); [exact Huid | by apply existsb_by_id].
      * apply (unique_app email_of); [exact Hemail|].
        apply findOne_by_email_None in Hfind.
        unfold email_of at 1. cbn [fields].
        by rewrite <- (assoc_L (∪)), (lookup_union_Some_l _ _ _ (VStr (toLowerCase e))).
  - destruct (handleCreateProduct P now fresh req db) as [r db'] eqn:Hrun.
    cbn [snd].
    destruct (create_effect P _ _ _ _ _ _ Hrun)
      as [[-> _] | (u & f & _ & Hfresh & -> & _ & Hprice & Ho & Hu & _)];
      [by constructor|].
    constructor; cbn [usersCollection itemsCollection with_items]; try assumption.
    + apply (unique_app _id); [exact Hiid | by apply existsb_by_id].
    + apply Forall_app. split; [exact Hwf|]. constructor; [|constructor].
      split; [exact Hprice | by exists (sub u)].
  - destruct (handleUpdateProduct P now req db) as [r db'] eqn:Hrun.
    cbn [snd].
    destruct (update_effect P _ _ _ _ _ Hrun)
      as [[-> _] | (id & item & u & updates & _ & _ & _ & _ & -> & _ & _ & _
                    & Hprice & Hout)];
      [by constructor|].
    constructor; cbn [usersCollection itemsCollection with_items]; try assumption.
    + unfold unique_ids. by rewrite fmap_updateOne.
    + apply well_formed_updateOne; [exact Hwf|].
      intros d [(x & Hx & Hnan & Hlt) (s & Ho & Hu)].
      assert (Howner : forall k, k = "ownerId" \/ k = "userId" ->
                updates !! k = None).
      { intros k Hk. apply Hout. unfold update_fields.
        repeat (apply not_elem_of_cons; split;
                [destruct Hk as [-> | ->]; discriminate|]).
        apply not_elem_of_nil. }
      split.
      * cbn [fields set_fields].
        destruct Hprice as [[Hnone _] | (Hsome & Hnan' & Hlt')].
        -- exists x. rewrite lookup_union_r by exact Hnone. by repeat split.
        -- eexists. rewrite (lookup_union_Some_l _ _ _ _ Hsome). by repeat split.
      * exists s. cbn [fields set_fields].
        rewrite !lookup_union_r by (apply Howner; auto). by split.
  - destruct (handleDeleteProduct P req db) as [r db'] eqn:Hrun. cbn [snd].
    destruct (delete_effect P _ _ _ _ Hrun)
      as [[-> _] | (id & item & u & _ & _ & _ & _ & -> & _)];
      [by constructor|].
    constructor; cbn [usersCollection itemsCollection with_items]; try assumption.
    + by apply unique_ids_deleteOne.
    + by apply Forall_deleteOne.
Qed.

End Invariants.

(** ** What the routing table lets a request do *)

Lemma updateOne_removed (q : document -> bool) (f : document -> document)
  (c : collection) (d : document) :
  d ∈ c -> d ∉ updateOne q f c -> findOne q c = Some d.
Proof.
  unfold findOne. induction c as [|x r IH]; [by intros ?%elem_of_nil|].
  cbn [updateOne List.find]. destruct (q x) eqn:Hq.
  - intros [-> | Hr]%elem_of_cons Hout; [reflexivity|].
    exfalso. apply Hout. by apply elem_of_cons; right.
  - intros [-> | Hr]%elem_of_cons Hout.
    + exfalso. apply Hout. by apply elem_of_cons; left.
    + apply IH; [exact Hr|]. intros Hin. apply Hout. by apply elem_of_cons; right.
Qed.

Lemma deleteOne_removed (q : document -> bool) (c : collection) (d : document) :
  d ∈ c -> d ∉ deleteOne q c -> findOne q c = Some d.
Proof.
  unfold findOne. induction c as [|x r IH]; [by intros ?%elem_of_nil|].
  cbn [deleteOne List.find]. destruct (q x) eqn:Hq.
  - intros [-> | Hr]%elem_of_cons Hout; [reflexivity | contradiction].
  - intros [-> | Hr]%elem_of_cons Hout.
    + exfalso. apply Hout. by apply elem_of_cons; left.
    + apply IH; [exact Hr|]. intros Hin. apply Hout. by apply elem_of_cons; right.
Qed.

Lemma deleteOne_elem_of (q : document -> bool) (c : collection) (d : document) :
  d ∈ deleteOne q c -> d ∈ c.
Proof. intros Hd. eapply elem_of_sublist; [exact Hd | apply deleteOne_sublist]. Qed.

Section Table.

Variable P : Platform.


(** What a request can be answered by, as far as the store goes: a route
    that leaves it alone, one of the two routes that write accounts, or a
    guarded writer of items. *)
Lemma dispatch_cases (env : Env) (m : method) (path : list string)
  (req : request) (db db' : DB) (rep : reply) :
  dispatch P env m path req db = Some (rep, db') ->
  db' = db
  \/ (m = POST /\ List.map toLowerCase path = [ "auth"; "register" ]
      /\ (rep, db')
         = (let out := register P (env_now env) (env_later env) (env_iat env)
                         (env_fresh env) (env_salt env) (with_param req "") db
            in (Handled (fst out), snd out)))
  \/ (m = POST /\ List.map toLowerCase path = [ "auth"; "oauth" ]
      /\ (rep, db')
         = (let out := oauth P (env_now env) (env_iat env) (env_fresh env)
                         (with_param req "") db
            in (Handled (fst out), snd out)))
  \/ (exists h id,
        item_writer P env h
        /\ (rep, db')
           = (let out := guarded P (env_now env) h (with_param req id) db
              in (Handled (fst out), snd out))).
Proof.
  unfold dispatch, routes. destruct m; cbn [first_match method_eqb];
    destruct path as [|x [|y [|z rest]]]; cbn [match_path];
    repeat match goal with
      | |- context [String.eqb ?a ?b] =>
          let H := fresh "Hseg" in
          destruct (String.eqb a b) eqn:H;
          [apply String.eqb_eq in H|]
      end;
    unfold read_only, protected, answer; lazy zeta;
    try (intros [= <- <-]; by left).
  all: try (intros [= <- <-]; right; right; right; eexists _, _;
            split; [constructor | reflexivity]).
  all: try (intros [= <- <-]; right; left; split; [reflexivity|];
            split; [cbn [List.map]; repeat match goal with
                     | H : toLowerCase _ = toLowerCase _ |- _ => rewrite H; clear H
                     end; reflexivity | reflexivity]).
  all: try (intros [= <- <-]; right; right; left; split; [reflexivity|];
            split; [cbn [List.map]; repeat match goal with
                     | H : toLowerCase _ = toLowerCase _ |- _ => rewrite H; clear H
                     end; reflexivity | reflexivity]).
  all: try (rewrite login_effect; intros [= <- <-]; by left).
  all: try (destruct (getItems P _ db); cbn [option_map];
            [intros [= <- <-]; by left | discriminate]).
  all: try (change (listOwned P ?msg) with (listOwned P msg);
            unfold guarded; destruct (authGuard P _ _); cbn [fst snd];
            intros [= <- <-]; by left).
Qed.

Lemma authGuard_inr (now : Z) (req req' : request) :
  authGuard P now req = inr req' ->
  exists c,
    bearer_token req <> ""
    /\ jwt_verify P (bearer_token req) (JWT_SECRET P) now = Some c
    /\ req' = set_user req c.
Proof.
  unfold authGuard. lazy zeta.
  destruct (String.eqb (bearer_token req) "") eqn:Htoken; [discriminate|].
  apply String.eqb_neq in Htoken.
  destruct (jwt_verify P (bearer_token req) (JWT_SECRET P) now) as [c|];
    [|discriminate].
  intros [= <-]. by exists c.
Qed.

(** A request the table serves is no change of the store, or one of the
    steps of the handlers. *)
Lemma dispatch_step (env : Env) (m : method) (path : list string)
  (req : request) (db db' : DB) (rep : reply) :
  dispatch P env m path req db = Some (rep, db') ->
  db' = db \/ step P db db'.
Proof.
  intros [Hsame | [(_ & _ & Hout) | [(_ & _ & Hout) | (h & id & Hh & Hout)]]]
    %dispatch_cases; [by left | | |]; lazy zeta in Hout.
  - injection Hout as _ ->. right. apply step_register.
  - injection Hout as _ ->. right. apply step_oauth.
  - injection Hout as _ ->. unfold guarded.
    destruct (authGuard P (env_now env) (with_param req id)); [by left|].
    right. destruct Hh; [apply step_update | apply step_create | apply step_delete].
Qed.

Lemma reachable_consistent (db : DB) : reachable P db -> consistent db.
Proof.
  induction 1 as [|db db' _ IH Hstep].
  - constructor; cbn; try apply NoDup_nil_2; constructor.
  - by apply (step_consistent P db db').
Qed.

End Table.

Lemma findOne_unique {A} (g : document -> A) (q : document -> bool)
  (c : collection) (d : document) :
  NoDup (g <$> c) ->
  (forall x, q x = true -> g x = g d) -> q d = true ->
  d ∈ c -> findOne q c = Some d.
Proof.
  intros Hnodup Hq Hd. unfold findOne.
  induction c as [|x r IH]; [by intros ?%elem_of_nil|].
  cbn [fmap list_fmap] in Hnodup. apply NoDup_cons in Hnodup as [Hx Hr].
  cbn [List.find]. destruct (q x) eqn:Hqx.
  - intros [-> | Hin]%elem_of_cons; [reflexivity|].
    exfalso. apply Hx. rewrite (Hq x Hqx).
    apply list_elem_of_fmap. by exists d.
  - intros [-> | Hin]%elem_of_cons; [congruence | by apply IH].
Qed.

Section Guarantees.

Variable P : Platform.

(** Whatever requests the server has answered since it started on empty
    collections, every stored item and every stored account is the document
    a search by its own [_id] finds: no identifier is stored twice. *)
Theorem stored_documents_found_by_id (db : DB) (d : document) :
  reachable P db ->
  (d ∈ itemsCollection db ->
   findOne (by_id (_id d)) (itemsCollection db) = Some d)
  /\ (d ∈ usersCollection db ->
      findOne (by_id (_id d)) (usersCollection db) = Some d).
Proof.
  intros [Huid _ Hiid _]%reachable_consistent.
  assert (Hkey : forall x, by_id (_id d) x = true -> _id x = _id d).
  { intros x Hx. unfold by_id in Hx. by apply N.eqb_eq in Hx. }
  assert (Hself : by_id (_id d) d = true) by apply N.eqb_refl.
  split; intros Hd; by apply (findOne_unique _id).
Qed.

(** In every store the server reaches, each item holds a price that is a
    number, not NaN and not below zero, and one value as its owner, the
    same under [ownerId] and [userId]: neither a creation nor an update
    can store anything else. *)
Theorem stored_items_priced_and_owned (db : DB) (d : document) :
  reachable P db ->
  d ∈ itemsCollection db ->
  (exists x, fields d !! "price" = Some (VNum x)
             /\ isNaN x = false /\ lt x pos_zero = false)
  /\ (exists v, fields d !! "ownerId" = Some v
                /\ fields d !! "userId" = Some v).
Proof.
  intros [_ _ _ Hwf]%reachable_consistent Hd.
  rewrite Forall_forall in Hwf.
  destruct (Hwf d Hd) as [Hprice (owner & Ho & Hu)].
  split; [exact Hprice|]. by exists (VStr owner).
Qed.

(** A refusal has changed nothing: an answer of any route with a status
    from 400 to 499 (400, 401, 403, 404, 409) leaves both collections as
    they were, every such answer being given before the handler writes. *)
Theorem refusal_changes_nothing (env : Env) (m : method) (path : list string)
  (req : request) (db db' : DB) (r : response) :
  dispatch P env m path req db = Some (Handled r, db') ->
  400 <= status r < 500 ->
  db' = db.
Proof.
  intros Hrun Hrefused.
  assert (H200 : status r <> 200) by lia.
  assert (H201 : status r <> 201) by lia.
  clear Hrefused. revert Hrun H200 H201.
  intros [Hsame | [(_ & _ & Hout) | [(_ & _ & Hout) | (h & id & Hh & Hout)]]]
    %dispatch_cases H200 H201; [exact Hsame | | |]; lazy zeta in Hout.
  - destruct (register P _ _ _ _ _ _ db) as [r0 d0] eqn:Hrun.
    cbn [fst snd] in Hout. injection Hout as -> ->.
    apply register_effect in Hrun
      as [[-> _] | (e & p & u & _ & _ & _ & _ & _ & _ & ->)];
      [reflexivity | by destruct H201].
  - destruct (oauth P _ _ _ _ db) as [r0 d0] eqn:Hrun.
    cbn [fst snd] in Hout. injection Hout as -> ->.
    apply oauth_effect in Hrun as [[-> _] | (e & u & _ & _ & -> & _)];
      [reflexivity | by destruct H200].
  - unfold guarded in Hout.
    destruct (authGuard P (env_now env) (with_param req id)) as [a|req'];
      [by injection Hout as _ ->|].
    destruct (h req' db) as [r0 d0] eqn:Hrun.
    cbn [fst snd] in Hout. injection Hout as -> ->.
    destruct Hh.
    + apply update_effect in Hrun
        as [[-> _] | (i & item & u & upd & _ & _ & _ & _ & _ & -> & _)];
        [reflexivity | by destruct H200].
    + apply create_effect in Hrun
        as [[-> _] | (u & f & _ & _ & _ & -> & _)];
        [reflexivity | by destruct H201].
    + apply delete_effect in Hrun
        as [[-> _] | (i & item & u & _ & _ & _ & _ & _ & ->)];
        [reflexivity | by destruct H200].
Qed.

(** The items are written with a token only, and taken away by their
    owner only. When a request makes a stored item disappear or a new
    document appear among the items (by a creation, an update or a
    deletion), it carried a token that verifies; and an item that was
    stored and is no longer had passed the ownership check for the token's
    subject. *)
Theorem items_written_by_owner (env : Env) (m : method) (path : list string)
  (req : request) (db db' : DB) (rep : reply) (d : document) :
  dispatch P env m path req db = Some (rep, db') ->
  (d ∈ itemsCollection db /\ d ∉ itemsCollection db')
  \/ (d ∈ itemsCollection db' /\ d ∉ itemsCollection db) ->
  exists c,
    bearer_token req <> ""
    /\ jwt_verify P (bearer_token req) (JWT_SECRET P) (env_now env) = Some c
    /\ (d ∈ itemsCollection db -> ensureOwnership (Some d) (sub c) = true).
Proof.
  intros [Hsame | [(_ & _ & Hout) | [(_ & _ & Hout) | (h & id & Hh & Hout)]]]
    %dispatch_cases Hd; try lazy zeta in Hout.
  - subst db'. by destruct Hd as [[? ?] | [? ?]].
  - injection Hout as _ ->. exfalso.
    destruct (register P _ _ _ _ _ _ db) as [r0 d0] eqn:Hrun. cbn [snd] in Hd.
    apply register_effect in Hrun
      as [[-> _] | (e & p & u & _ & _ & _ & _ & _ & -> & _)];
      by destruct Hd as [[? ?] | [? ?]].
  - injection Hout as _ ->. exfalso.
    destruct (oauth P _ _ _ _ db) as [r0 d0] eqn:Hrun. cbn [snd] in Hd.
    apply oauth_effect in Hrun as [[-> _] | (e & u & _ & _ & _ & Hcase)];
      [by destruct Hd as [[? ?] | [? ?]]|].
    lazy zeta in Hcase.
    destruct (findOne (by_email (toLowerCase e)) (usersCollection db));
      [destruct Hcase as [_ ->] | destruct Hcase as (_ & _ & ->)];
      by destruct Hd as [[? ?] | [? ?]].
  - injection Hout as _ ->. unfold guarded in Hd.
    destruct (authGuard P (env_now env) (with_param req id)) as [a|req']
      eqn:Hguard; [by destruct Hd as [[? ?] | [? ?]]|].
    apply authGuard_inr in Hguard as (c & Htoken & Hverify & ->).
    exists c. split; [exact Htoken|]. split; [exact Hverify|].
    destruct (h (set_user (with_param req id) c) db) as [r0 d0] eqn:Hrun.
    cbn [snd] in Hd. destruct Hh.
    + apply update_effect in Hrun
        as [[-> _] | (i & item & u & upd & _ & Hfind & Hu & Hown & -> & _ & _
                      & _ & _ & Hout)];
        [by destruct Hd as [[? ?] | [? ?]]|].
      injection Hu as <-. cbn [itemsCollection with_items] in Hd.
      destruct Hd as [[Hin Hgone] | [Hin Hnew]]; [|done].
      intros _. apply (updateOne_removed _ _ _ _ Hin) in Hgone. congruence.
    + apply create_effect in Hrun
        as [[-> _] | (u & f & Hu & _ & -> & _ & _ & Ho & _)];
        [by destruct Hd as [[? ?] | [? ?]]|].
      injection Hu as <-. cbn [itemsCollection with_items] in Hd.
      destruct Hd as [[Hin Hgone] | [Hin Hnew]]; [|done].
      exfalso. apply Hgone. apply elem_of_app. by left.
    + apply delete_effect in Hrun
        as [[-> _] | (i & item & u & _ & Hfind & Hu & Hown & -> & _)];
        [by destruct Hd as [[? ?] | [? ?]]|].
      injection Hu as <-. cbn [itemsCollection with_items] in Hd.
      destruct Hd as [[Hin Hgone] | [Hin Hnew]]; [|done].
      intros _. apply (deleteOne_removed _ _ _ Hin) in Hgone. congruence.
Qed.

(** The accounts change only through [POST /auth/register] and through
    [POST /auth/oauth] with the internal key: no other request, and no OAuth
    sync without the key, writes to the users. *)
Theorem accounts_written_by_auth_routes (env : Env) (m : method)
  (path : list string) (req : request) (db db' : DB) (rep : reply) :
  dispatch P env m path req db = Some (rep, db') ->
  usersCollection db' <> usersCollection db ->
  m = POST
  /\ (List.map toLowerCase path = [ "auth"; "register" ]
      \/ (List.map toLowerCase path = [ "auth"; "oauth" ]
          /\ x_internal_key req = Some (INTERNAL_API_KEY P))).
Proof.
  intros [Hsame | [(Hm & Hpath & _) | [(Hm & Hpath & Hout) | (h & id & Hh & Hout)]]]
    %dispatch_cases Hd.
  - by subst db'.
  - split; [exact Hm | by left].
  - split; [exact Hm|]. right. split; [exact Hpath|]. lazy zeta in Hout.
    injection Hout as _ ->.
    destruct (oauth P _ _ _ _ db) as [r0 d0] eqn:Hrun. cbn [snd] in Hd.
    by apply oauth_effect in Hrun as [[-> _] | (e & u & Hkey & _)].
  - exfalso. lazy zeta in Hout. injection Hout as _ ->. unfold guarded in Hd.
    destruct (authGuard P (env_now env) (with_param req id)) as [a|req'];
      [done|].
    destruct (h req' db) as [r0 d0] eqn:Hrun. cbn [snd] in Hd. destruct Hh.
    + by apply update_effect in Hrun
        as [[-> _] | (i & item & u & upd & _ & _ & _ & _ & -> & _)].
    + by apply create_effect in Hrun as [[-> _] | (u & f & _ & _ & -> & _)].
    + by apply delete_effect in Hrun
        as [[-> _] | (i & item & u & _ & _ & _ & _ & -> & _)].
Qed.

End Guarantees.

(** ** Round trips *)

Lemma existsb_findOne (q : document -> bool) (c : collection) :
  existsb q c = false -> findOne q c = None.
Proof.
  unfold findOne. induction c as [|x r IH]; [reflexivity|].
  cbn [existsb List.find]. destruct (q x); [discriminate | exact IH].
Qed.

Lemma findOne_elem_of (q : document -> bool) (c : collection) (d : document) :
  findOne q c = Some d -> d ∈ c /\ q d = true.
Proof.
  unfold findOne. induction c as [|x r IH]; [discriminate|].
  cbn [List.find]. destruct (q x) eqn:Hq.
  - intros [= ->]. split; [by left | exact Hq].
  - intros [Hin Hd]%IH. split; [by right | exact Hd].
Qed.

Lemma findOne_deleteOne (id : ObjectId) (c : collection) :
  unique_ids c -> findOne (by_id id) (deleteOne (by_id id) c) = None.
Proof.
  unfold unique_ids, findOne. induction c as [|x r IH]; [reflexivity|].
  cbn [fmap list_fmap deleteOne]. intros [Hx Hr]%NoDup_cons.
  destruct (by_id id x) eqn:Hq.
  - destruct (List.find (by_id id) r) as [y|] eqn:Hfind; [|reflexivity].
    exfalso. apply Hx. apply findOne_elem_of in Hfind as [Hin Hy].
    unfold by_id in Hq, Hy. apply N.eqb_eq in Hq, Hy.
    apply list_elem_of_fmap. exists y. split; [congruence | exact Hin].
  - cbn [List.find]. rewrite Hq. by apply IH.
Qed.

Lemma length_deleteOne (q : document -> bool) (c : collection) (d : document) :
  findOne q c = Some d -> length c = S (length (deleteOne q c)).
Proof.
  unfold findOne. induction c as [|x r IH]; [discriminate|].
  cbn [List.find deleteOne]. destruct (q x); [reflexivity|].
  intros Hfind. cbn [length]. f_equal. by apply IH.
Qed.

Lemma deleteOne_keeps (q : document -> bool) (c : collection) (d : document) :
  d ∈ c -> q d = false -> d ∈ deleteOne q c.
Proof.
  induction c as [|x r IH]; [by intros ?%elem_of_nil|].
  cbn [deleteOne]. intros [-> | Hin]%elem_of_cons Hq.
  - rewrite Hq. by left.
  - destruct (q x); [exact Hin | right; by apply IH].
Qed.

Lemma toLowerCase_empty (s : string) : toLowerCase s = "" -> s = "".
Proof. destruct s; [reflexivity | discriminate]. Qed.

Lemma truthy_VStr (s : string) : truthy (Some (VStr s)) = true -> s <> "".
Proof. cbn. intros H ->. discriminate. Qed.

Section RoundTrips.

Variable P : Platform.

(** In any store the server reaches, an item that was deleted is gone: the
    detail route and a second deletion answer 404 for its identifier, one
    document less is stored and the items of other identifiers are all
    still there. *)
Theorem deleted_item_is_gone (req : request) (db db' : DB) (r : response) :
  reachable P db ->
  handleDeleteProduct P req db = (r, db') -> status r = 200 ->
  getItem P req db' = fail 404 "Item not found"
  /\ handleDeleteProduct P req db' = (fail 404 "Product not found", db')
  /\ length (itemsCollection db) = S (length (itemsCollection db'))
  /\ forall d, d ∈ itemsCollection db ->
               parse_oid P (param_id req) <> Some (_id d) ->
               d ∈ itemsCollection db'.
Proof.
  intros [_ _ Hiid _]%reachable_consistent Hrun Hok.
  apply delete_effect in Hrun
    as [[_ Hno] | (id & item & u & Hparse & Hfind & _ & _ & -> & _)];
    [contradiction|].
  pose proof (findOne_deleteOne id _ Hiid) as Hgone.
  unfold getItem, handleDeleteProduct. rewrite Hparse.
  cbn [itemsCollection with_items]. rewrite Hgone.
  split; [reflexivity|]. split; [reflexivity|].
  split; [by apply (length_deleteOne _ _ item)|].
  intros d Hd Hother. apply deleteOne_keeps; [exact Hd|].
  unfold by_id. apply N.eqb_neq. congruence.
Qed.

(** An item that was created is published: the detail route finds it under
    the identifier of the 201 answer and shows the same properties, apart
    from [userId], which only the owner's views carry; a listing without
    filters contains it. *)
Theorem created_item_is_published (now : Z) (fresh : ObjectId)
  (req : request) (db db' : DB) (r : response) :
  handleCreateProduct P now fresh req db = (r, db') -> status r = 201 ->
  parse_oid P (oid_str P fresh) = Some fresh ->
  exists item,
    json r = ItemJson (mapUserItem P item)
    /\ mapUserItem P item !! "id" = Some (VStr (oid_str P fresh))
    /\ getItem P (with_param req (oid_str P fresh)) db'
       = {| status := 200; json := ItemJson (mapPublicItem P item) |}
    /\ mapPublicItem P item !! "userId" = None
    /\ (forall k, k <> "userId" ->
                  mapPublicItem P item !! k = mapUserItem P item !! k)
    /\ (forall q, query_search q = None -> query_category q = None ->
                  exists listed,
                    getItems P q db'
                    = Some {| status := 200; json := ItemsJson listed |}
                    /\ mapPublicItem P item ∈ listed).
Proof.
  intros Hrun Hok Hparse.
  apply create_effect in Hrun
    as [[_ Hno] | (u & f & Hu & Hfresh & -> & -> & _)]; [contradiction|].
  exists {| _id := fresh; fields := f |}.
  split; [reflexivity|].
  split.
  { unfold mapUserItem. rewrite lookup_with_prop_ne by discriminate.
    unfold mapPublicItem. lazy zeta. by rewrite lookup_with_prop_eq. }
  split.
  { unfold getItem. cbn [param_id with_param]. rewrite Hparse.
    cbn [itemsCollection with_items].
    rewrite (findOne_app _ _ _ (existsb_findOne _ _ Hfresh)).
    unfold by_id at 1. cbn [_id]. by rewrite N.eqb_refl. }
  split.
  { unfold mapPublicItem. lazy zeta.
    rewrite !lookup_with_prop_ne by discriminate. apply lookup_empty. }
  split.
  { intros k Hk. unfold mapUserItem. by rewrite lookup_with_prop_ne. }
  intros q Hsearch Hcategory. unfold getItems, compile_filter.
  rewrite Hsearch, Hcategory. eexists. split; [reflexivity|].
  apply list_elem_of_In, in_map.
  apply (Permutation_in _ (Permutation_sym (sort_desc_perm _))).
  apply filter_In. split; [|reflexivity].
  cbn [itemsCollection with_items]. apply in_or_app. right. by left.
Qed.




End RoundTrips.

(** ** Tokens, OAuth accounts and what the answers show *)

Lemma unique_same {A} (g : document -> A) (c : collection) (d d' : document) :
  NoDup (g <$> c) -> d ∈ c -> d' ∈ c -> g d' = g d -> d' = d.
Proof.
  induction c as [|x r IH]; [by intros _ ?%elem_of_nil|].
  cbn [fmap list_fmap]. intros [Hx Hr]%NoDup_cons.
  intros [-> | Hd]%elem_of_cons [-> | Hd']%elem_of_cons Hg.
  - reflexivity.
  - exfalso. apply Hx. rewrite <- Hg. apply list_elem_of_fmap. by exists d'.
  - exfalso. apply Hx. rewrite Hg. apply list_elem_of_fmap. by exists d.
  - by apply IH.
Qed.

Lemma updateOne_elem_of (q : document -> bool) (f : document -> document)
  (c : collection) (d' : document) :
  d' ∈ updateOne q f c ->
  d' ∈ c \/ exists d, findOne q c = Some d /\ d' = f d.
Proof.
  unfold findOne. induction c as [|x r IH]; [by intros ?%elem_of_nil|].
  cbn [updateOne List.find]. destruct (q x) eqn:Hq.
  - intros [-> | Hr]%elem_of_cons; [right; by exists x | left; by right].
  - intros [-> | Hr]%elem_of_cons; [left; by left|].
    destruct (IH Hr) as [Hin | Hnew]; [left; by right | by right].
Qed.

Lemma sanitizeUser_keys (P : Platform) (u : document) (k : string) :
  k ∉ [ "id"; "name"; "email"; "role" ] -> sanitizeUser P u !! k = None.
Proof.
  intros Hk. unfold sanitizeUser.
  rewrite !lookup_with_prop_ne; [apply lookup_empty | ..];
    intros <-; apply Hk; repeat ((by left) || right).
Qed.

Section Accounts.

Variable P : Platform.

Lemma register_json (t1 t2 iat : Z) (fresh : ObjectId) (salt : string)
  (req : request) (db : DB) (user : gmap string value) (tok : string) :
  json (fst (register P t1 t2 iat fresh salt req db)) = AuthJson user tok ->
  exists u, user = sanitizeUser P u.
Proof.
  unfold register. lazy zeta.
  destruct (negb _ || _ || _); [discriminate|].
  destruct (call_toLowerCase _); [|discriminate].
  destruct (findOne _ _); [discriminate|].
  destruct (bcrypt_hash_js _ _ _); [|discriminate].
  destruct (insertOne _ _ _); [|discriminate].
  cbn [fst json]. intros [= <- _]. by eexists.
Qed.

Lemma login_json (iat : Z) (req : request) (db : DB)
  (user : gmap string value) (tok : string) :
  json (fst (login P iat req db)) = AuthJson user tok ->
  exists u, user = sanitizeUser P u.
Proof.
  unfold login. lazy zeta.
  destruct (negb _ || _); [discriminate|].
  destruct (call_toLowerCase _); [|discriminate].
  destruct (findOne _ _); [|discriminate].
  destruct (bcrypt_compare _ _ _) as [[]|]; try discriminate.
  cbn [negb fst json]. intros [= <- _]. by eexists.
Qed.

Lemma oauth_json (now iat : Z) (fresh : ObjectId) (req : request) (db : DB)
  (user : gmap string value) (tok : string) :
  json (fst (oauth P now iat fresh req db)) = AuthJson user tok ->
  exists u, user = sanitizeUser P u.
Proof.
  unfold oauth. lazy zeta.
  destruct (key_differs _ _); [discriminate|].
  destruct (negb _ || _); [discriminate|].
  destruct (call_toLowerCase _); [|discriminate].
  destruct (upsert_by_email _ _ _ _ _) as [[u c]|]; [|discriminate].
  cbn [fst json]. intros [= <- _]. by eexists.
Qed.

(** The user object of an answer of [register], [login] or [oauth] has no
    property besides [id], [name], [email] and [role]: the password hash,
    the provider and the dates of the account are never sent. *)
Theorem auth_answers_show_four_fields (t1 t2 now iat : Z) (fresh : ObjectId)
  (salt : string) (req : request) (db : DB) (user : gmap string value)
  (tok k : string) :
  json (fst (register P t1 t2 iat fresh salt req db)) = AuthJson user tok
  \/ json (fst (login P iat req db)) = AuthJson user tok
  \/ json (fst (oauth P now iat fresh req db)) = AuthJson user tok ->
  k ∉ [ "id"; "name"; "email"; "role" ] ->
  user !! k = None.
Proof.
  intros [[u ->]%register_json | [[u ->]%login_json | [u ->]%oauth_json]] Hk;
    by apply sanitizeUser_keys.
Qed.

(** The token of an auth answer makes its holder the owner of what they
    create. When [jwt.verify] gives back the claims that [buildToken]
    signed for an account, a creation sent with [Bearer] and that token is
    stored under the account's [id], as the auth answers show it, and under
    its email. *)
Theorem token_holder_owns_creation (u : document) (iat now : Z)
  (fresh : ObjectId) (req : request) (db db' : DB) (r : response) :
  authorization req = Some ("Bearer " ++ buildToken P iat u) ->
  buildToken P iat u <> "" ->
  jwt_verify P (buildToken P iat u) (JWT_SECRET P) now
  = Some {| sub := oid_str P (_id u);
            email := fields u !! "email";
            role := or_else (fields u !! "role") (Some (VStr "user")) |} ->
  guarded P now (handleCreateProduct P now fresh) req db = (r, db') ->
  status r = 201 ->
  exists item,
    findOne (by_id fresh) (itemsCollection db') = Some item
    /\ json r = ItemJson (mapUserItem P item)
    /\ Some (VStr (oid_str P (_id u))) = sanitizeUser P u !! "id"
    /\ fields item !! "ownerId" = Some (VStr (oid_str P (_id u)))
    /\ fields item !! "userId" = Some (VStr (oid_str P (_id u)))
    /\ fields item !! "ownerEmail" = Some (bson (fields u !! "email")).
Proof.
  intros Hauth Htoken Hverify Hrun Hok.
  assert (Hbearer : bearer_token req = buildToken P iat u).
  { unfold bearer_token. rewrite Hauth. unfold env_or.
    destruct (String.eqb_spec ("Bearer " ++ buildToken P iat u) "") as [He|_];
      [discriminate He|].
    apply remove_first_prefix. }
  erewrite guarded_authenticated in Hrun;
    [| by rewrite Hbearer | rewrite Hbearer; exact Hverify].
  apply create_effect in Hrun
    as [[_ Hno] | (c & f & Hc & Hfresh & -> & -> & _ & Ho & Hu & _ & Hmail & _)];
    [contradiction|].
  injection Hc as <-. cbn [sub email] in Ho, Hu, Hmail.
  exists {| _id := fresh; fields := f |}.
  split.
  { cbn [itemsCollection with_items].
    rewrite (findOne_app _ _ _ (existsb_findOne _ _ Hfresh)).
    unfold by_id at 1. cbn [_id]. by rewrite N.eqb_refl. }
  split; [reflexivity|].
  split; [by rewrite sanitizeUser_id|].
  split; [exact Ho|]. split; [exact Hu | exact Hmail].
Qed.

Lemma oauth_set_lookup (now : Z) (e : string) (name provider : prop) :
  let set := oauth_set now e name provider in
  set !! "email" = Some (VStr e)
  /\ set !! "role" = Some (VStr "user")
  /\ set !! "name" = Some (bson name)
  /\ set !! "password" = None
  /\ set !! "createdAt" = None.
Proof.
  unfold oauth_set. cbn [list_to_map foldr fst snd uncurry].
  repeat split; by simplify_map_eq.
Qed.

Lemma oauth_requires (now iat : Z) (fresh : ObjectId) (req : request) (db : DB) :
  status (fst (oauth P now iat fresh req db)) = 200 ->
  truthy (body req !! "email") = true /\ truthy (body req !! "name") = true.
Proof.
  unfold oauth. lazy zeta.
  destruct (key_differs _ _); [discriminate|].
  destruct (truthy (body req !! "email")); [|discriminate].
  destruct (truthy (body req !! "name")); [|discriminate].
  by intros _.
Qed.

(** An OAuth sync of an email that has an account keeps the account and
    rewrites its profile: the same [_id], password hash and creation date,
    the name of the request, and the role set back to [user], whatever it
    was. *)
Theorem oauth_sync_rewrites_profile (now iat : Z) (fresh : ObjectId)
  (req : request) (db db' : DB) (r : response) (e : string) (d : document) :
  oauth P now iat fresh req db = (r, db') -> status r = 200 ->
  body req !! "email" = Some (VStr e) ->
  findOne (by_email (toLowerCase e)) (usersCollection db) = Some d ->
  exists u,
    findOne (by_email (toLowerCase e)) (usersCollection db') = Some u
    /\ json r = AuthJson (sanitizeUser P u) (buildToken P iat u)
    /\ _id u = _id d
    /\ fields u !! "role" = Some (VStr "user")
    /\ fields u !! "name" = body req !! "name"
    /\ fields u !! "password" = fields d !! "password"
    /\ fields u !! "createdAt" = fields d !! "createdAt"
    /\ length (usersCollection db') = length (usersCollection db).
Proof.
  intros Hrun Hok He Hfind.
  pose proof (oauth_requires now iat fresh req db) as Hreq.
  rewrite Hrun in Hreq. destruct (Hreq Hok) as [_ Hname].
  apply oauth_effect in Hrun
    as [[_ Hno] | (e0 & u & _ & He0 & -> & Hcase)]; [contradiction|].
  assert (e0 = e) as -> by congruence.
  lazy zeta in Hcase. rewrite Hfind in Hcase. destruct Hcase as [-> ->].
  destruct (oauth_set_lookup now (toLowerCase e) (body req !! "name")
              (body req !! "provider"))
    as (Hsemail & Hsrole & Hsname & Hspass & Hscreated).
  eexists. split.
  { cbn [usersCollection with_users]. apply findOne_updateOne; [exact Hfind|].
    unfold by_email. apply strict_eq_str_true. cbn [fields set_fields].
    by apply lookup_union_Some_l. }
  split; [reflexivity|]. split; [reflexivity|]. cbn [fields set_fields].
  split; [by apply lookup_union_Some_l|].
  split.
  { rewrite (lookup_union_Some_l _ _ _ _ Hsname).
    destruct (body req !! "name") as [v|]; [reflexivity | discriminate]. }
  split; [by apply lookup_union_r|]. split; [by apply lookup_union_r|].
  cbn [usersCollection with_users]. apply length_updateOne.
Qed.

(** An account that an OAuth sync has made has no password: a login for its
    email is refused with 401 whatever password it brings. *)
Theorem oauth_account_refuses_passwords (now iat iat' : Z) (fresh : ObjectId)
  (req req' : request) (db db' : DB) (r : response) (e e' p : string) :
  oauth P now iat fresh req db = (r, db') -> status r = 200 ->
  body req !! "email" = Some (VStr e) ->
  findOne (by_email (toLowerCase e)) (usersCollection db) = None ->
  body req' !! "email" = Some (VStr e') ->
  toLowerCase e' = toLowerCase e ->
  body req' !! "password" = Some (VStr p) -> p <> "" ->
  login P iat' req' db' = (fail 401 "Invalid email or password", db').
Proof.
  intros Hrun Hok He Hnone He' Hsame Hp Hpne.
  pose proof (oauth_requires now iat fresh req db) as Hreq.
  rewrite Hrun in Hreq. destruct (Hreq Hok) as [Hte _].
  rewrite He in Hte. apply truthy_VStr in Hte.
  apply oauth_effect in Hrun
    as [[_ Hno] | (e0 & u & _ & He0 & -> & Hcase)]; [contradiction|].
  assert (e0 = e) as -> by congruence.
  lazy zeta in Hcase. rewrite Hnone in Hcase. destruct Hcase as (Hu & _ & ->).
  assert (He'ne : e' <> "").
  { intros ->. apply Hte. symmetry in Hsame. by apply toLowerCase_empty. }
  unfold login. lazy zeta. rewrite He', Hp.
  rewrite (truthy_string e' He'ne), (truthy_string p Hpne).
  cbn [negb orb call_toLowerCase]. rewrite Hsame.
  cbn [usersCollection with_users]. rewrite (findOne_app _ _ _ Hnone).
  destruct (oauth_set_lookup now (toLowerCase e) (body req !! "name")
              (body req !! "provider"))
    as (Hsemail & _ & _ & Hspass & _).
  assert (Hmail : fields u !! "email" = Some (VStr (toLowerCase e))).
  { subst u. cbn [fields]. apply lookup_union_Some_l.
    by apply lookup_union_Some_l. }
  assert (Hpass : fields u !! "password" = None).
  { subst u. cbn [fields]. apply lookup_union_None. split;
      [apply lookup_union_None; split; [exact Hspass | reflexivity]
      | reflexivity]. }
  unfold by_email at 1. rewrite Hmail. cbn [strict_eq_str].
  rewrite String.eqb_refl. rewrite Hpass. reflexivity.
Qed.

End Accounts.

(** ** What stays as it is *)

Lemma updateOne_keeps (q : document -> bool) (f : document -> document)
  (c : collection) (d : document) :
  d ∈ c ->
  d ∈ updateOne q f c \/ (findOne q c = Some d /\ f d ∈ updateOne q f c).
Proof.
  unfold findOne. induction c as [|x r IH]; [by intros ?%elem_of_nil|].
  cbn [updateOne List.find]. destruct (q x) eqn:Hq.
  - intros [-> | Hr]%elem_of_cons; [right; split; [reflexivity | by left]|].
    left. by right.
  - intros [-> | Hr]%elem_of_cons; [left; by left|].
    destruct (IH Hr) as [Hin | [Hfind Hin]];
      [left; by right | right; split; [exact Hfind | by right]].
Qed.

Section Fixed.

Variable P : Platform.

(** No request moves an item to another owner. In a store the server
    reaches, a document that a request leaves under the identifier of a
    stored item has the owner, the owner's email and the creation date the
    item had. *)
Theorem item_owner_is_fixed (env : Env) (m : method) (path : list string)
  (req : request) (db db' : DB) (rep : reply) (d d' : document) (k : string) :
  reachable P db ->
  dispatch P env m path req db = Some (rep, db') ->
  d ∈ itemsCollection db -> d' ∈ itemsCollection db' -> _id d' = _id d ->
  k ∈ [ "ownerId"; "userId"; "ownerEmail"; "createdAt" ] ->
  fields d' !! k = fields d !! k.
Proof.
  intros [_ _ Hiid _]%reachable_consistent Hrun Hd Hd' Hid Hk.
  assert (Hsame : d' ∈ itemsCollection db -> fields d' !! k = fields d !! k).
  { intros Hin. by rewrite (unique_same _id _ d d' Hiid Hd Hin Hid). }
  apply dispatch_cases in Hrun
    as [-> | [(_ & _ & Hout) | [(_ & _ & Hout) | (h & id & Hh & Hout)]]];
    try lazy zeta in Hout.
  - by apply Hsame.
  - injection Hout as _ ->. apply Hsame.
    destruct (register P _ _ _ _ _ _ db) as [r0 d0] eqn:Hrun. cbn [snd] in Hd'.
    by apply register_effect in Hrun
      as [[-> _] | (e & p & u & _ & _ & _ & _ & _ & -> & _)].
  - injection Hout as _ ->. apply Hsame.
    destruct (oauth P _ _ _ _ db) as [r0 d0] eqn:Hrun. cbn [snd] in Hd'.
    apply oauth_effect in Hrun as [[-> _] | (e & u & _ & _ & _ & Hcase)];
      [done|].
    lazy zeta in Hcase.
    by destruct (findOne (by_email (toLowerCase e)) (usersCollection db));
      [destruct Hcase as [_ ->] | destruct Hcase as (_ & _ & ->)].
  - injection Hout as _ ->. unfold guarded in Hd'.
    destruct (authGuard P (env_now env) (with_param req id)) as [a|req'];
      [by apply Hsame|].
    destruct (h req' db) as [r0 d0] eqn:Hrun. cbn [snd] in Hd'. destruct Hh.
    + apply update_effect in Hrun
        as [[-> _] | (i & item & u & upd & _ & Hfind & _ & _ & -> & _ & _
                      & _ & _ & Hout)]; [by apply Hsame|].
      cbn [itemsCollection with_items] in Hd'.
      apply updateOne_elem_of in Hd' as [Hin | (x & Hx & ->)];
        [by apply Hsame|].
      assert (x = item) as -> by congruence.
      apply findOne_elem_of in Hfind as [Hitem _].
      cbn [_id set_fields] in Hid.
      rewrite <- (unique_same _id _ d item Hiid Hd Hitem Hid).
      cbn [fields set_fields]. apply lookup_union_r. apply Hout.
      unfold update_fields.
      repeat (apply elem_of_cons in Hk as [-> | Hk];
              [repeat (apply not_elem_of_cons; split; [discriminate|]);
               apply not_elem_of_nil|]).
      by apply elem_of_nil in Hk.
    + apply create_effect in Hrun
        as [[-> _] | (u & f & _ & Hfresh & -> & _)]; [by apply Hsame|].
      cbn [itemsCollection with_items] in Hd'.
      apply elem_of_app in Hd' as [Hin | ->%list_elem_of_singleton];
        [by apply Hsame|].
      exfalso. apply (existsb_by_id _ _ Hfresh). cbn [_id] in Hid. rewrite Hid.
      apply list_elem_of_fmap. by exists d.
    + apply delete_effect in Hrun
        as [[-> _] | (i & item & u & _ & _ & _ & _ & -> & _)];
        [by apply Hsame|].
      apply Hsame. by apply (deleteOne_elem_of (by_id i)).
Qed.


Lemma step_keeps_accounts (db db' : DB) (u : document) :
  step P db db' -> u ∈ usersCollection db ->
  exists u', u' ∈ usersCollection db' /\ same_credentials u u'.
Proof.
  intros Hstep Hu.
  assert (Hsame : usersCollection db' = usersCollection db ->
                  exists u', u' ∈ usersCollection db' /\ same_credentials u u').
  { intros ->. by exists u. }
  destruct Hstep as [t1 t2 iat fresh salt req | iat req | now iat fresh req
                    | now fresh req | now req | req].
  - destruct (register P t1 t2 iat fresh salt req db) as [r0 d0] eqn:Hrun.
    cbn [snd] in *.
    apply register_effect in Hrun
      as [[-> _] | (e & p & v & _ & _ & _ & _ & _ & -> & _)];
      [by apply Hsame|].
    exists u. split; [|done]. cbn [usersCollection with_users].
    apply elem_of_app. by left.
  - apply Hsame. by rewrite login_effect.
  - destruct (oauth P now iat fresh req db) as [r0 d0] eqn:Hrun.
    cbn [snd] in *.
    apply oauth_effect in Hrun as [[-> _] | (e & v & _ & _ & _ & Hcase)];
      [by apply Hsame|].
    lazy zeta in Hcase.
    destruct (oauth_set_lookup now (toLowerCase e) (body req !! "name")
                (body req !! "provider"))
      as (Hsemail & _ & _ & Hspass & Hscreated).
    destruct (findOne (by_email (toLowerCase e)) (usersCollection db))
      as [x|] eqn:Hfind.
    + destruct Hcase as [_ ->]. cbn [usersCollection with_users].
      destruct (updateOne_keeps (by_email (toLowerCase e))
                  (set_fields (oauth_set now (toLowerCase e)
                     (body req !! "name") (body req !! "provider")))
                  _ u Hu) as [Hin | [Hfound Hin]]; [by exists u|].
      apply findOne_elem_of in Hfound as [_ Hmail].
      unfold by_email in Hmail. apply strict_eq_str_true in Hmail.
      eexists. split; [exact Hin|].
      unfold same_credentials. cbn [_id fields set_fields].
      split; [reflexivity|].
      split; [by rewrite (lookup_union_Some_l _ _ _ _ Hsemail)|].
      split; by apply lookup_union_r.
    + destruct Hcase as (_ & _ & ->). exists u. split; [|done].
      cbn [usersCollection with_users]. apply elem_of_app. by left.
  - apply Hsame.
    destruct (handleCreateProduct P now fresh req db) as [r0 d0] eqn:Hrun.
    cbn [snd].
    by apply create_effect in Hrun as [[-> _] | (c & f & _ & _ & -> & _)].
  - apply Hsame.
    destruct (handleUpdateProduct P now req db) as [r0 d0] eqn:Hrun.
    cbn [snd].
    by apply update_effect in Hrun
      as [[-> _] | (i & item & c & upd & _ & _ & _ & _ & -> & _)].
  - apply Hsame.
    destruct (handleDeleteProduct P req db) as [r0 d0] eqn:Hrun. cbn [snd].
    by apply delete_effect in Hrun
      as [[-> _] | (i & item & c & _ & _ & _ & _ & -> & _)].
Qed.

(** No request removes an account or rewrites its credentials: every
    account is still stored after any request, under the same [_id], with
    the same email, password hash and creation date. *)
Theorem account_credentials_are_fixed (env : Env) (m : method)
  (path : list string) (req : request) (db db' : DB) (rep : reply)
  (u : document) :
  dispatch P env m path req db = Some (rep, db') ->
  u ∈ usersCollection db ->
  exists u',
    u' ∈ usersCollection db' /\ _id u' = _id u
    /\ fields u' !! "email" = fields u !! "email"
    /\ fields u' !! "password" = fields u !! "password"
    /\ fields u' !! "createdAt" = fields u !! "createdAt".
Proof.
  intros [-> | Hstep]%dispatch_step Hu; [by exists u|].
  exact (step_keeps_accounts db db' u Hstep Hu).
Qed.

Lemma login_accepted (iat : Z) (req : request) (db : DB) :
  status (fst (login P iat req db)) = 200 <->
  exists e p u h,
    body req !! "email" = Some (VStr e) /\ e <> ""
    /\ body req !! "password" = Some (VStr p) /\ p <> ""
    /\ findOne (by_email (toLowerCase e)) (usersCollection db) = Some u
    /\ fields u !! "password" = Some (VStr h) /\ h <> ""
    /\ bcrypt_check P p h = true.
Proof.
  unfold login. lazy zeta. split.
  - destruct (negb (truthy (body req !! "email")) || _) eqn:Hreq;
      [discriminate|].
    apply orb_false_iff in Hreq as [Hte Htp]. apply negb_false_iff in Hte, Htp.
    destruct (body req !! "email") as [[ | | | e | ]|];
      cbn [call_toLowerCase]; try discriminate.
    apply truthy_VStr in Hte.
    destruct (findOne _ _) as [u|] eqn:Hfind; [|discriminate].
    destruct (body req !! "password") as [[ | | | p | ]|];
      cbn [bcrypt_compare]; try discriminate.
    apply truthy_VStr in Htp. unfold or_else.
    destruct (fields u !! "password") as [[ | b | x | h | t ]|] eqn:Hh;
      cbn [truthy truthy_value];
      [ cbn; discriminate | destruct b; cbn; discriminate
      | destruct x; cbn; discriminate | | cbn; discriminate
      | cbn; discriminate ].
    destruct (String.eqb_spec h "") as [->|Hhne]; cbn [negb bcrypt_compare];
      [cbn; discriminate|].
    destruct (String.eqb_spec h "") as [->|_]; [done|].
    destruct (bcrypt_check P p h) eqn:Hcheck; [|discriminate].
    intros _. exists e, p, u, h. repeat split; assumption || reflexivity.
  - intros (e & p & u & h & -> & He & -> & Hp & Hfind & Hh & Hhne & Hcheck).
    rewrite (truthy_string e He), (truthy_string p Hp).
    cbn [negb orb call_toLowerCase]. rewrite Hfind, Hh. unfold or_else.
    rewrite (truthy_string h Hhne). cbn [bcrypt_compare].
    apply String.eqb_neq in Hhne. rewrite Hhne, Hcheck. reflexivity.
Qed.

(** No request locks an account out. In a store the server reaches, a login
    that is answered 200 is answered 200 again after any other request,
    whatever that request was. *)
Theorem login_survives_requests (env : Env) (m : method) (path : list string)
  (req : request) (db db' : DB) (rep : reply) (iat iat' : Z)
  (credentials : request) :
  reachable P db ->
  dispatch P env m path req db = Some (rep, db') ->
  status (fst (login P iat credentials db)) = 200 ->
  status (fst (login P iat' credentials db')) = 200.
Proof.
  intros Hdb [-> | Hstep]%dispatch_step.
  { rewrite !login_accepted. exact id. }
  assert (Hdb' : reachable P db') by by apply (reachable_step P db db').
  apply reachable_consistent in Hdb' as [_ Hemail _ _].
  rewrite !login_accepted.
  intros (e & p & u & h & He & Hene & Hp & Hpne & Hfind & Hh & Hhne & Hcheck).
  apply findOne_elem_of in Hfind as [Hu Hmail].
  unfold by_email in Hmail. apply strict_eq_str_true in Hmail.
  destruct (step_keeps_accounts db db' u Hstep Hu)
    as (u' & Hu' & _ & Hmail' & Hpass' & _).
  exists e, p, u', h. repeat split; try assumption; [|congruence].
  apply (findOne_unique email_of); [exact Hemail | | | exact Hu'].
  - intros x Hx. unfold by_email in Hx. apply strict_eq_str_true in Hx.
    unfold email_of. congruence.
  - unfold by_email. apply strict_eq_str_true. congruence.
Qed.

End Fixed.

(** ** The owner's listing, the order of the routes and the origins *)

Ltac route_literals :=
  repeat match goal with
    | |- context [String.eqb ?a (toLowerCase ?s)] =>
        let v := eval vm_compute in (String.eqb a (toLowerCase s)) in
        change (String.eqb a (toLowerCase s)) with v
    end.

Section Listing.

Variable P : Platform.

(** [GET /products] with a token that verifies lists the caller's items:
    the documents listed are exactly the stored items that the caller may
    update and delete, each as often as it is stored, newest first. *)
Theorem products_lists_own_items (env : Env) (x : string) (req : request)
  (db : DB) (c : Claims) :
  toLowerCase x = "products" ->
  bearer_token req <> "" ->
  jwt_verify P (bearer_token req) (JWT_SECRET P) (env_now env) = Some c ->
  exists listed,
    dispatch P env GET [ x ] req db
    = Some (Handled {| status := 200;
                       json := ItemsJson (List.map (mapUserItem P) listed) |},
            db)
    /\ Permutation listed
         (List.filter (fun d => ensureOwnership (Some d) (sub c))
            (itemsCollection db))
    /\ (forall d, d ∈ listed <->
                  d ∈ itemsCollection db
                  /\ ensureOwnership (Some d) (sub c) = true)
    /\ StronglySorted not_older listed.
Proof.
  intros Hx Htoken Hverify.
  exists (sort_desc (List.filter (buildOwnershipQuery (sub c))
                       (itemsCollection db))).
  split.
  { unfold dispatch, routes. cbn [first_match method_eqb match_path].
    rewrite Hx. route_literals. cbv iota. unfold protected, answer.
    by rewrite (guarded_authenticated P _ _ _ _ c). }
  split; [apply sort_desc_perm|].
  split; [|apply sort_desc_sorted].
  intros d. rewrite !list_elem_of_In.
  split.
  - intros Hd. apply (Permutation_in _ (sort_desc_perm _)) in Hd.
    by apply filter_In in Hd.
  - intros Hd. apply (Permutation_in _ (Permutation_sym (sort_desc_perm _))).
    by apply filter_In.
Qed.

(** [GET /items/mine] never reaches its handler. The route of the item's
    detail is registered before it and takes every path of two segments
    under [items], so the request is answered as a detail request for the
    identifier [mine], with or without a token. *)
Theorem item_detail_takes_items_mine (env : Env) (x y : string)
  (req : request) (db : DB) :
  toLowerCase x = "items" -> y <> "" ->
  dispatch P env GET [ x; y ] req db
  = Some (Handled (getItem P (with_param req y) db), db).
Proof.
  intros Hx Hy%String.eqb_neq.
  unfold dispatch, routes. cbn [first_match method_eqb match_path].
  rewrite Hx, Hy. route_literals. cbv iota. reflexivity.
Qed.

End Listing.

(** *** The origins *)


Lemma split_comma_free (s : string) :
  comma_free s = true -> split_comma s = [ s ].
Proof.
  induction s as [|c r IH]; [reflexivity|].
  cbn [comma_free split_comma]. intros [Hc Hr]%andb_true_iff.
  apply negb_true_iff in Hc. rewrite Hc, (IH Hr). reflexivity.
Qed.

Lemma split_comma_app (s t : string) :
  comma_free s = true ->
  split_comma (s ++ String "," t) = s :: split_comma t.
Proof.
  induction s as [|c r IH].
  - intros _. rewrite append_empty. reflexivity.
  - cbn [comma_free]. intros [Hc Hr]%andb_true_iff.
    apply negb_true_iff in Hc. rewrite append_String.
    cbn [split_comma]. rewrite Hc, (IH Hr). reflexivity.
Qed.

Lemma split_comma_join (entries : list string) :
  entries <> [] -> forallb comma_free entries = true ->
  split_comma (join_comma entries) = entries.
Proof.
  induction entries as [|e rest IH]; [done|]. intros _.
  cbn [forallb]. intros [He Hrest]%andb_true_iff.
  destruct rest as [|e' rest'].
  - cbn [join_comma]. by apply split_comma_free.
  - change (join_comma (e :: e' :: rest'))
      with (e ++ String "," (join_comma (e' :: rest'))).
    rewrite (split_comma_app _ _ He). f_equal. by apply IH.
Qed.

Lemma existsb_eqb (o : string) (l : list string) :
  existsb (String.eqb o) l = true <-> o ∈ l.
Proof.
  rewrite existsb_exists, list_elem_of_In. split.
  - intros (x & Hx & ->%String.eqb_eq). exact Hx.
  - intros Ho. exists o. split; [exact Ho | apply String.eqb_refl].
Qed.

(** When [CLIENT_ORIGIN] lists entries between commas, a request that
    names its origin passes the check exactly when the origin is one of the
    two built-in ones or one of the entries with the white space around it
    removed; the comparison is of the whole string, letter case included. *)
Theorem configured_origins_allowed (entries : list string) (o : string) :
  forallb comma_free entries = true ->
  join_comma entries <> "" -> o <> "" ->
  corsOrigin (Some (join_comma entries)) (Some o) = true
  <-> o ∈ [ "http://localhost:3000"; "https://dishdelight-client.vercel.app" ]
      \/ o ∈ List.map trim entries.
Proof.
  intros Hfree Hjoin Ho. unfold corsOrigin, allowedOrigins.
  apply String.eqb_neq in Ho, Hjoin. rewrite Ho, Hjoin. cbn [orb].
  rewrite split_comma_join; [| by intros -> | exact Hfree].
  rewrite existsb_eqb. apply elem_of_app.
Qed.

(** ** The guarantees on the sample data *)

Lemma menu_reachable : reachable Sample.platform Sample.menu.
Proof.
  exact (reachable_step Sample.platform _ _ (reachable_empty Sample.platform)
           (step_create Sample.platform Sample.empty_db 1736519400000 1%N
              (Sample.as_user "U" "" Sample.soup_body))).
Defined.

Lemma members_reachable : reachable Sample.platform Sample.members.
Proof.
  exact (reachable_step Sample.platform _ _ (reachable_empty Sample.platform)
           (step_register Sample.platform Sample.empty_db 10 10 10 7%N "salt"
              (Sample.anonymous Sample.ann_body))).
Defined.

(** The soup of the menu is found by its identifier. *)
Lemma stored_documents_found_by_id_witness :
  reachable Sample.platform Sample.menu
  /\ length (itemsCollection Sample.menu) = 1%nat
  /\ Forall (fun d => findOne (by_id (_id d)) (itemsCollection Sample.menu)
                      = Some d)
       (itemsCollection Sample.menu).
Proof.
  split; [exact menu_reachable|]. split; [reflexivity|].
  apply Forall_forall. intros d Hd.
  exact (proj1 (stored_documents_found_by_id Sample.platform Sample.menu d
                  menu_reachable) Hd).
Defined.

(** The soup has a price and an owner. *)
Lemma stored_items_priced_and_owned_witness :
  reachable Sample.platform Sample.menu
  /\ length (itemsCollection Sample.menu) = 1%nat
  /\ Forall (fun d =>
               (exists x, fields d !! "price" = Some (VNum x)
                          /\ isNaN x = false /\ lt x pos_zero = false)
               /\ (exists v, fields d !! "ownerId" = Some v
                             /\ fields d !! "userId" = Some v))
       (itemsCollection Sample.menu).
Proof.
  split; [exact menu_reachable|]. split; [reflexivity|].
  apply Forall_forall. intros d Hd.
  exact (stored_items_priced_and_owned Sample.platform Sample.menu d
           menu_reachable Hd).
Defined.

(** A deletion without a token is answered 401 and the menu stays. *)
Lemma refusal_changes_nothing_witness :
  exists r db',
    dispatch Sample.platform Trial.env DELETE [ "products"; Sample.oid_hex 1%N ]
      (Sample.anonymous ∅) Sample.menu
    = Some (Handled r, db')
    /\ status r = 401 /\ db' = Sample.menu.
Proof.
  eexists _, _. split; [reflexivity|]. split; [reflexivity|].
  eapply (refusal_changes_nothing Sample.platform Trial.env DELETE
           [ "products"; Sample.oid_hex 1%N ] (Sample.anonymous ∅) Sample.menu).
  - reflexivity.
  - split; [discriminate | reflexivity].
Defined.

(** U deletes the soup with a token: the token verifies and the soup was
    U's. *)
Lemma items_written_by_owner_witness :
  exists rep db' d c,
    dispatch Sample.platform Trial.env DELETE [ "products"; Sample.oid_hex 1%N ]
      (Trial.bearer "U" ∅) Sample.menu
    = Some (rep, db')
    /\ d ∈ itemsCollection Sample.menu /\ (d ∉ itemsCollection db')
    /\ jwt_verify Sample.platform (bearer_token (Trial.bearer "U" ∅))
         (JWT_SECRET Sample.platform) 10
       = Some c
    /\ sub c = "U"
    /\ ensureOwnership (Some d) (sub c) = true.
Proof.
  eexists _, _, _, _. split; [reflexivity|].
  split; [left|]. split; [apply not_elem_of_nil|].
  split; [reflexivity|]. split; [reflexivity|].
  destruct (items_written_by_owner Sample.platform Trial.env DELETE
              [ "products"; Sample.oid_hex 1%N ] (Trial.bearer "U" ∅)
              Sample.menu _ _ _ eq_refl
              (or_introl (conj (list_elem_of_here _ _) (not_elem_of_nil _))))
    as (c & _ & Hverify & Hown).
  injection Hverify as <-. apply Hown. left.
Defined.

(** The registration of Ann is a [POST] on [/auth/register]. *)
Lemma accounts_written_by_auth_routes_witness :
  usersCollection Sample.members <> usersCollection Sample.empty_db
  /\ POST = POST
  /\ (List.map toLowerCase [ "auth"; "register" ] = [ "auth"; "register" ]
      \/ (List.map toLowerCase [ "auth"; "register" ] = [ "auth"; "oauth" ]
          /\ x_internal_key (Sample.anonymous Sample.ann_body)
             = Some (INTERNAL_API_KEY Sample.platform))).
Proof.
  split; [discriminate|].
  apply (accounts_written_by_auth_routes Sample.platform Trial.env POST
           [ "auth"; "register" ] (Sample.anonymous Sample.ann_body)
           Sample.empty_db Sample.members
           (Handled (fst (register Sample.platform 10 10 10 7%N "salt"
                            (Sample.anonymous Sample.ann_body) Sample.empty_db)))).
  - reflexivity.
  - discriminate.
Defined.
(** U deletes the soup: it is gone and the menu is empty. *)
Lemma deleted_item_is_gone_witness :
  exists db',
    handleDeleteProduct Sample.platform
      (Sample.as_user "U" (Sample.oid_hex 1%N) ∅) Sample.menu
    = ({| status := 200; json := Message "Product deleted" |}, db')
    /\ getItem Sample.platform (Sample.as_user "U" (Sample.oid_hex 1%N) ∅) db'
       = fail 404 "Item not found"
    /\ length (itemsCollection Sample.menu) = S (length (itemsCollection db')).
Proof.
  eexists. split; [reflexivity|].
  destruct (deleted_item_is_gone Sample.platform
              (Sample.as_user "U" (Sample.oid_hex 1%N) ∅) Sample.menu _ _
              menu_reachable eq_refl eq_refl)
    as (Hget & _ & Hlength & _).
  split; [exact Hget | exact Hlength].
Defined.
(** The soup, once created, is shown by the detail route. *)
Lemma created_item_is_published_witness :
  exists item,
    getItem Sample.platform
      (with_param (Sample.as_user "U" "" Sample.soup_body) (Sample.oid_hex 1%N))
      Sample.menu
    = {| status := 200; json := ItemJson (mapPublicItem Sample.platform item) |}
    /\ mapUserItem Sample.platform item !! "id"
       = Some (VStr "000000000000000000000001")
    /\ mapPublicItem Sample.platform item !! "userId" = None.
Proof.
  assert (Hok : status (fst (handleCreateProduct Sample.platform 1736519400000
                               1%N (Sample.as_user "U" "" Sample.soup_body)
                               Sample.empty_db)) = 201)
    by (vm_compute; reflexivity).
  assert (Hparse : parse_oid Sample.platform (oid_str Sample.platform 1%N)
                   = Some 1%N) by (vm_compute; reflexivity).
  destruct (created_item_is_published Sample.platform 1736519400000 1%N
              (Sample.as_user "U" "" Sample.soup_body) Sample.empty_db
              Sample.menu _ (surjective_pairing _) Hok Hparse)
    as (item & _ & Hid & Hget & Hnone & _).
  exists item. split; [exact Hget|]. split; [exact Hid | exact Hnone].
Defined.
(** The answer to Ann's login does not show her password. *)
Lemma auth_answers_show_four_fields_witness :
  exists user tok,
    json (fst (login Sample.platform 20 Trial.password_login Sample.members))
    = AuthJson user tok
    /\ user !! "email" = Some (VStr "ann@example.com")
    /\ user !! "password" = None.
Proof.
  assert (Hjson : exists user tok,
             json (fst (login Sample.platform 20 Trial.password_login
                          Sample.members))
             = AuthJson user tok
             /\ user !! "email" = Some (VStr "ann@example.com")).
  { eexists _, _. split; vm_compute; reflexivity. }
  destruct Hjson as (user & tok & Hjson & Hemail).
  exists user, tok. split; [exact Hjson|]. split; [exact Hemail|].
  apply (auth_answers_show_four_fields Sample.platform 10 10 10 20 7%N "salt"
           Trial.password_login Sample.members user tok "password").
  - right. left. exact Hjson.
  - repeat (apply not_elem_of_cons; split; [discriminate|]).
    apply not_elem_of_nil.
Defined.
(** The account 7 of the sample platform, whose tokens carry no email,
    creates the soup with its token: the soup is stored under its [id]. *)
Lemma token_holder_owns_creation_witness :
  exists item,
    findOne (by_id 1%N)
      (itemsCollection
         (snd (guarded Sample.platform 30
                 (handleCreateProduct Sample.platform 30 1%N)
                 (Trial.bearer (Sample.oid_hex 7%N) Sample.soup_body)
                 Sample.empty_db)))
    = Some item
    /\ fields item !! "ownerId" = Some (VStr "000000000000000000000007").
Proof.
  assert (Hok : status (fst (guarded Sample.platform 30
                               (handleCreateProduct Sample.platform 30 1%N)
                               (Trial.bearer (Sample.oid_hex 7%N) Sample.soup_body)
                               Sample.empty_db)) = 201)
    by (vm_compute; reflexivity).
  destruct (token_holder_owns_creation Sample.platform
              {| _id := 7%N; fields := ∅ |} 20 30 1%N
              (Trial.bearer (Sample.oid_hex 7%N) Sample.soup_body)
              Sample.empty_db
              (snd (guarded Sample.platform 30
                      (handleCreateProduct Sample.platform 30 1%N)
                      (Trial.bearer (Sample.oid_hex 7%N) Sample.soup_body)
                      Sample.empty_db))
              (fst (guarded Sample.platform 30
                      (handleCreateProduct Sample.platform 30 1%N)
                      (Trial.bearer (Sample.oid_hex 7%N) Sample.soup_body)
                      Sample.empty_db))
              eq_refl)
    as (item & Hfind & _ & _ & Howner & _);
    [discriminate | reflexivity | apply surjective_pairing | exact Hok |].
  exists item. split; [exact Hfind | exact Howner].
Defined.
(** Ann syncs through OAuth under a new name: the same account, with her
    password. *)
Lemma oauth_sync_rewrites_profile_witness :
  exists u,
    findOne (by_email "ann@example.com")
      (usersCollection
         (snd (oauth Sample.platform 40 40 8%N (Sample.sync Trial.ann_profile)
                 Sample.members)))
    = Some u
    /\ _id u = 7%N
    /\ fields u !! "name" = Some (VStr "Ann B")
    /\ fields u !! "password" = Some (VStr "$2b$10$secret").
Proof.
  assert (Hok : status (fst (oauth Sample.platform 40 40 8%N
                               (Sample.sync Trial.ann_profile) Sample.members))
                = 200) by (vm_compute; reflexivity).
  assert (Hfind : exists d,
             findOne (by_email (toLowerCase "ANN@example.com"))
               (usersCollection Sample.members) = Some d
             /\ _id d = 7%N
             /\ fields d !! "password" = Some (VStr "$2b$10$secret")).
  { eexists. repeat split; vm_compute; reflexivity. }
  destruct Hfind as (d & Hfind & Hid & Hpass).
  destruct (oauth_sync_rewrites_profile Sample.platform 40 40 8%N
              (Sample.sync Trial.ann_profile) Sample.members _ _
              "ANN@example.com" d (surjective_pairing _) Hok eq_refl Hfind)
    as (u & Hfound & _ & Hsame & _ & Hname & Hkept & _).
  exists u. split; [exact Hfound|]. split; [congruence|].
  split; [rewrite Hname; reflexivity | congruence].
Defined.
(** Bob, whose account an OAuth sync has made, cannot log in with a
    password. *)
Lemma oauth_account_refuses_passwords_witness :
  status
    (fst (login Sample.platform 50
            (Sample.anonymous (Sample.credentials "Bob@example.com" (VStr "guess")))
            (snd (oauth Sample.platform 40 40 8%N
                    (Sample.sync (Sample.profile "bob@example.com" "Bob"))
                    Sample.members))))
  = 401.
Proof.
  assert (Hok : status (fst (oauth Sample.platform 40 40 8%N
                               (Sample.sync (Sample.profile "bob@example.com" "Bob"))
                               Sample.members)) = 200)
    by (vm_compute; reflexivity).
  assert (Hnone : findOne (by_email (toLowerCase "bob@example.com"))
                    (usersCollection Sample.members) = None)
    by (vm_compute; reflexivity).
  rewrite (oauth_account_refuses_passwords Sample.platform 40 40 50 8%N
             (Sample.sync (Sample.profile "bob@example.com" "Bob"))
             (Sample.anonymous (Sample.credentials "Bob@example.com" (VStr "guess")))
             Sample.members _ _ "bob@example.com" "Bob@example.com" "guess"
             (surjective_pairing _) Hok eq_refl Hnone eq_refl eq_refl eq_refl);
    [reflexivity | discriminate].
Defined.
(** U sets the price of the soup through the table: the soup stays U's. *)
Lemma item_owner_is_fixed_witness :
  exists rep db' d d',
    dispatch Sample.platform Trial.env PUT [ "products"; Sample.oid_hex 1%N ]
      (Trial.bearer "U" Sample.price_only) Sample.menu
    = Some (rep, db')
    /\ d ∈ itemsCollection Sample.menu /\ d' ∈ itemsCollection db'
    /\ fields d' !! "price" <> fields d !! "price"
    /\ fields d' !! "ownerId" = fields d !! "ownerId".
Proof.
  assert (Hrun : exists rep db' d d',
             dispatch Sample.platform Trial.env PUT
               [ "products"; Sample.oid_hex 1%N ]
               (Trial.bearer "U" Sample.price_only) Sample.menu
             = Some (rep, db')
             /\ itemsCollection Sample.menu = [ d ]
             /\ itemsCollection db' = [ d' ]
             /\ _id d' = _id d
             /\ fields d' !! "price" <> fields d !! "price").
  { eexists _, _, _, _. repeat split; try (vm_compute; reflexivity).
    vm_compute. discriminate. }
  destruct Hrun as (rep & db' & d & d' & Hrun & Hd & Hd' & Hid & Hprice).
  exists rep, db', d, d'. split; [exact Hrun|].
  assert (Hin : d ∈ itemsCollection Sample.menu) by (rewrite Hd; left).
  assert (Hin' : d' ∈ itemsCollection db') by (rewrite Hd'; left).
  split; [exact Hin|]. split; [exact Hin'|]. split; [exact Hprice|].
  apply (item_owner_is_fixed Sample.platform Trial.env PUT
           [ "products"; Sample.oid_hex 1%N ]
           (Trial.bearer "U" Sample.price_only) Sample.menu db' rep d d'
           "ownerId" menu_reachable Hrun Hin Hin' Hid).
  left.
Defined.
(** Ann syncs through OAuth, through the table: her account keeps its
    password. *)
Lemma account_credentials_are_fixed_witness :
  exists rep db' u u',
    dispatch Sample.platform Trial.env POST [ "auth"; "oauth" ]
      (Sample.sync Trial.ann_profile) Sample.members
    = Some (rep, db')
    /\ u ∈ usersCollection Sample.members
    /\ u' ∈ usersCollection db'
    /\ fields u' !! "name" <> fields u !! "name"
    /\ fields u' !! "password" = fields u !! "password".
Proof.
  assert (Hrun : exists rep db' u,
             dispatch Sample.platform Trial.env POST [ "auth"; "oauth" ]
               (Sample.sync Trial.ann_profile) Sample.members
             = Some (rep, db')
             /\ usersCollection Sample.members = [ u ]
             /\ length (usersCollection db') = 1%nat
             /\ Forall (fun u' => fields u' !! "name" <> fields u !! "name")
                  (usersCollection db')).
  { eexists _, _, _. repeat split; try (vm_compute; reflexivity).
    vm_compute. repeat constructor. discriminate. }
  destruct Hrun as (rep & db' & u & Hrun & Hu & _ & Hname).
  assert (Hin : u ∈ usersCollection Sample.members) by (rewrite Hu; left).
  destruct (account_credentials_are_fixed Sample.platform Trial.env POST
              [ "auth"; "oauth" ] (Sample.sync Trial.ann_profile)
              Sample.members db' rep u Hrun Hin)
    as (u' & Hin' & _ & _ & Hpass & _).
  exists rep, db', u, u'. split; [exact Hrun|]. split; [exact Hin|].
  split; [exact Hin'|]. split; [|exact Hpass].
  rewrite Forall_forall in Hname. exact (Hname u' Hin').
Defined.
(** Ann can log in before and after Bob's OAuth sync. *)
Lemma login_survives_requests_witness :
  exists rep db',
    dispatch Sample.platform Trial.later POST [ "auth"; "oauth" ]
      (Sample.sync (Sample.profile "bob@example.com" "Bob")) Sample.members
    = Some (rep, db')
    /\ db' <> Sample.members
    /\ status (fst (login Sample.platform 50 Trial.password_login db')) = 200.
Proof.
  assert (Hrun : exists rep db',
             dispatch Sample.platform Trial.later POST [ "auth"; "oauth" ]
               (Sample.sync (Sample.profile "bob@example.com" "Bob"))
               Sample.members
             = Some (rep, db')
             /\ length (usersCollection db') = 2%nat).
  { eexists _, _. split; vm_compute; reflexivity. }
  destruct Hrun as (rep & db' & Hrun & Hlen).
  exists rep, db'. split; [exact Hrun|]. split.
  { intros ->. discriminate Hlen. }
  apply (login_survives_requests Sample.platform Trial.later POST
           [ "auth"; "oauth" ]
           (Sample.sync (Sample.profile "bob@example.com" "Bob"))
           Sample.members db' rep 20 50 Trial.password_login
           members_reachable Hrun).
  vm_compute. reflexivity.
Defined.
(** U asks for [/Products] with a token: the soup is listed. *)
Lemma products_lists_own_items_witness :
  exists listed,
    dispatch Sample.platform Trial.env GET [ "Products" ] (Trial.bearer "U" ∅)
      Sample.menu
    = Some (Handled {| status := 200;
                       json := ItemsJson
                                 (List.map (mapUserItem Sample.platform) listed) |},
            Sample.menu)
    /\ Permutation listed (itemsCollection Sample.menu).
Proof.
  destruct (products_lists_own_items Sample.platform Trial.env "Products"
              (Trial.bearer "U" ∅) Sample.menu
              {| sub := "U"; email := None; role := Some (VStr "user") |})
    as (listed & Hrun & Hperm & _);
    [reflexivity | discriminate | reflexivity |].
  exists listed. split; [exact Hrun|]. exact Hperm.
Defined.

(** [GET /items/mine] is answered by the detail route: [mine] is no
    identifier. *)
Lemma item_detail_takes_items_mine_witness :
  dispatch Sample.platform Trial.env GET [ "items"; "mine" ]
    (Trial.bearer "U" ∅) Sample.menu
  = Some (Handled (fail 400 "Invalid item id"), Sample.menu).
Proof.
  rewrite (item_detail_takes_items_mine Sample.platform Trial.env
             "items" "mine" (Trial.bearer "U" ∅) Sample.menu);
    [reflexivity | reflexivity | discriminate].
Defined.

(** Of two entries, the second with white space around it. *)
Lemma configured_origins_allowed_witness :
  join_comma [ "https://a.example"; " https://b.example " ]
  = "https://a.example, https://b.example "
  /\ corsOrigin (Some "https://a.example, https://b.example ")
       (Some "https://b.example") = true
  /\ corsOrigin (Some "https://a.example, https://b.example ")
       (Some "https://B.example") = false.
Proof.
  split; [reflexivity|]. split.
  - apply (configured_origins_allowed
             [ "https://a.example"; " https://b.example " ]
             "https://b.example"); [reflexivity | discriminate | discriminate|].
    right. right. left.
  - reflexivity.
Defined.
